(** * TaskFlow tutorial API: envelope responses and in-memory CRUD

    A shallow embedding of [taskflow-api/src/main.py] (the FastAPI handlers
    over the two module-level dictionaries [tasks_db] and [user_stories_db])
    and of the four RPCs of [TaskAnalyticsServicer] from
    [Day-1/demos/grpc-demo/server.py].

    Python dictionaries are finite maps ([gmap]); the module-level stores
    and the wall clock are threaded through a small state-and-exception
    monad; [raise] is the exceptional outcome of that monad.  The handlers
    come in two layers.  [dispatch] is what a handler returns or raises,
    with the status code fixed by its decorator, for arguments of the
    types its signature declares.  [serve] puts the web framework around
    it: the check of a JSON body against the declared type (422 when it
    fails) and the check of the returned value against the decorator's
    [response_model] (500 when it fails).  Routing and the byte-level
    serialisation are outside the embedding. *)

From Stdlib Require Import String Ascii List ZArith Lia DecimalString.
From Stdlib Require DecimalNat.
From Stdlib Require Import Floats.PrimFloat.
From stdpp Require Import gmap strings list fin_maps.

Local Open Scope string_scope.
Local Open Scope nat_scope.

#[local] Set Warnings "-register-all,-inexact-float".

(** ** JSON-like values held in dictionaries *)

Inductive value : Type :=
| VNone
| VBool (b : bool)
| VInt (n : Z)
| VStr (s : string)
| VList (l : list value)
| VDict (d : list (string * value)).

Abbreviation dict := (gmap string value).

(** [None] for a missing optional string, as pydantic's [.dict()] does. *)
Definition VOpt (o : option string) : value :=
  match o with
  | Some s => VStr s
  | None => VNone
  end.

(** ** String formatting *)

Module Fmt.

(** [str(n)] for a natural number. *)
Definition decimal (n : nat) : string :=
  NilEmpty.string_of_uint (Nat.to_uint n).

Fixpoint zeros (k : nat) : string :=
  match k with
  | O => ""
  | S k' => String "0" (zeros k')
  end.

(** The format specification [{n:0Wd}]: zero-padded to width [W],
    longer numbers are printed in full. *)
Definition zfill (width n : nat) : string :=
  let s := decimal n in
  zeros (width - String.length s) +:+ s.

End Fmt.

(** ** The clock *)

Record datetime : Type := mk_datetime {
  year : nat;
  month : nat;
  day : nat;
  hour : nat;
  minute : nat;
  second : nat;
  microsecond : nat
}.

(** [datetime.isoformat()] of a naive datetime:
    [YYYY-MM-DDTHH:MM:SS], followed by [.ffffff] when the microsecond
    field is not zero. *)
Definition isoformat (d : datetime) : string :=
  Fmt.zfill 4 (year d) +:+ "-" +:+ Fmt.zfill 2 (month d) +:+ "-" +:+
  Fmt.zfill 2 (day d) +:+ "T" +:+ Fmt.zfill 2 (hour d) +:+ ":" +:+
  Fmt.zfill 2 (minute d) +:+ ":" +:+ Fmt.zfill 2 (second d) +:+
  (if Nat.eqb (microsecond d) 0 then ""
   else "." +:+ Fmt.zfill 6 (microsecond d)).

(** ** Models of [main.py] *)

Record ApiResponse (T : Type) : Type := mk_ApiResponse {
  success : bool;
  data : option T;
  message : option string;
  timestamp : string;
  version : string
}.
Arguments mk_ApiResponse {T} _ _ _ _ _.
Arguments success {T} _.
Arguments data {T} _.
Arguments message {T} _.
Arguments timestamp {T} _.
Arguments version {T} _.

(** The constructor call [ApiResponse(success=.., data=.., message=..,
    timestamp=..)]: [version] takes its default. *)
Definition new_ApiResponse {T} (success : bool) (data : T)
    (message timestamp : string) : ApiResponse T :=
  mk_ApiResponse success (Some data) (Some message) timestamp "1.0.0".

Record HealthResponse : Type := mk_HealthResponse {
  health_status : string;
  health_timestamp : string;
  health_version : string
}.

Record Task : Type := mk_Task {
  task_id_ : string;
  task_title : string;
  task_description : string;
  task_status : string;
  task_created_at : string;
  task_user_story : option string
}.

(** [Task.dict()] *)
Definition Task_dict (t : Task) : dict :=
  <["id" := VStr (task_id_ t)]>
  (<["title" := VStr (task_title t)]>
  (<["description" := VStr (task_description t)]>
  (<["status" := VStr (task_status t)]>
  (<["created_at" := VStr (task_created_at t)]>
  (<["user_story" := VOpt (task_user_story t)]> ∅))))).

Record CreateTaskRequest : Type := mk_CreateTaskRequest {
  req_title : string;
  req_description : string;
  req_user_story : option string
}.

Record UserStory : Type := mk_UserStory {
  story_id_ : string;
  as_a : string;
  i_want : string;
  so_that : string;
  acceptance_criteria : list string;
  priority : string
}.

(** [story.id = story_id] *)
Definition set_story_id (s : UserStory) (i : string) : UserStory :=
  mk_UserStory i (as_a s) (i_want s) (so_that s)
               (acceptance_criteria s) (priority s).

(** [UserStory.dict()] *)
Definition UserStory_dict (s : UserStory) : dict :=
  <["id" := VStr (story_id_ s)]>
  (<["as_a" := VStr (as_a s)]>
  (<["i_want" := VStr (i_want s)]>
  (<["so_that" := VStr (so_that s)]>
  (<["acceptance_criteria" := VList (map VStr (acceptance_criteria s))]>
  (<["priority" := VStr (priority s)]> ∅))))).

(** *** Exceptions and process state *)

Inductive exn : Type :=
| HTTPException (status_code : nat) (detail : dict)
| KeyError (key : string).

Record world : Type := mk_world {
  tasks_db : gmap string dict;
  user_stories_db : gmap string dict;
  ticks : nat
}.

Inductive outcome (A : Type) : Type :=
| Return (a : A)
| Raise (e : exn).
Arguments Return {A} a.
Arguments Raise {A} e.

Definition M (A : Type) : Type := world -> outcome A * world.

Definition ret {A} (a : A) : M A := fun w => (Return a, w).

Definition bind {A B} (m : M A) (f : A -> M B) : M B :=
  fun w =>
    match m w with
    | (Return a, w') => f a w'
    | (Raise e, w') => (Raise e, w')
    end.

Definition raise {A} (e : exn) : M A := fun w => (Raise e, w).

#[global] Instance M_ret : MRet M := @ret.
#[global] Instance M_bind : MBind M := fun A B f m => bind m f.

Definition get_tasks_db : M (gmap string dict) :=
  fun w => (Return (tasks_db w), w).

Definition put_tasks_db (db : gmap string dict) : M unit :=
  fun w => (Return tt, mk_world db (user_stories_db w) (ticks w)).

Definition get_user_stories_db : M (gmap string dict) :=
  fun w => (Return (user_stories_db w), w).

Definition put_user_stories_db (db : gmap string dict) : M unit :=
  fun w => (Return tt, mk_world (tasks_db w) db (ticks w)).

(** [k in d] *)
Definition contains {V} (k : string) (d : gmap string V) : bool :=
  match d !! k with
  | Some _ => true
  | None => false
  end.

(** [d[k]] *)
Definition getitem {V} (d : gmap string V) (k : string) : M V :=
  match d !! k with
  | Some v => ret v
  | None => raise (KeyError k)
  end.

(** [for x in l: body(x)] *)
Fixpoint for_each {A} (l : list A) (body : A -> M unit) : M unit :=
  match l with
  | [] => ret tt
  | x :: l' => body x;; for_each l' body
  end.

(** The dictionary literal raised as the [detail] of every
    [HTTPException] in the module. *)
Definition error_detail (error message timestamp : string) : dict :=
  <["success" := VBool false]>
  (<["error" := VStr error]>
  (<["message" := VStr message]>
  (<["timestamp" := VStr timestamp]>
  (<["version" := VStr "1.0.0"]> ∅)))).

Section Handlers.

(** The wall clock: the [n]-th call of [datetime.now()] of the process
    reads [clock n]. *)
Variable clock : nat -> datetime.

Definition datetime_now : M datetime :=
  fun w =>
    (Return (clock (ticks w)),
     mk_world (tasks_db w) (user_stories_db w) (S (ticks w))).

(** The [raise HTTPException(status_code=404, detail={...})] that
    [get_task], [update_task] and [delete_task] each spell out. *)
Definition task_not_found {A} (task_id : string) : M A :=
  now ← datetime_now;
  raise (HTTPException 404
           (error_detail "TASK_NOT_FOUND"
              ("Task with ID " +:+ task_id +:+ " not found")
              (isoformat now))).

(** [list(tasks_db.values())] is taken in the map's own order of keys,
    not in insertion order. *)
Definition get_tasks : M (ApiResponse (list dict)) :=
  db ← get_tasks_db;
  now ← datetime_now;
  ret (new_ApiResponse true (map snd (map_to_list db))
         "Tasks retrieved successfully" (isoformat now)).

Definition get_task (task_id : string) : M (ApiResponse dict) :=
  db ← get_tasks_db;
  if negb (contains task_id db) then task_not_found task_id
  else
    t ← getitem db task_id;
    now ← datetime_now;
    ret (new_ApiResponse true t "Task retrieved successfully"
           (isoformat now)).

Definition create_task (task_request : CreateTaskRequest)
    : M (ApiResponse Task) :=
  db ← get_tasks_db;
  let task_id := "task_" +:+ Fmt.zfill 3 (size db + 1) in
  now ← datetime_now;
  let new_task :=
    mk_Task task_id (req_title task_request)
            (req_description task_request) "pending" (isoformat now)
            (req_user_story task_request) in
  put_tasks_db (<[task_id := Task_dict new_task]> db);;
  now' ← datetime_now;
  ret (new_ApiResponse true new_task "Task created successfully"
         (isoformat now')).

(** One iteration of the loop of [update_task]:
    [if key in tasks_db[task_id]: tasks_db[task_id][key] = value]. *)
Definition update_field (task_id : string) (kv : string * value)
    : M unit :=
  db ← get_tasks_db;
  t ← getitem db task_id;
  if contains (fst kv) t
  then put_tasks_db (<[task_id := <[fst kv := snd kv]> t]> db)
  else ret tt.

(** What one iteration does to the record it finds under [task_id]. *)
Definition overwrite (t : dict) (kv : string * value) : dict :=
  if contains (fst kv) t then <[fst kv := snd kv]> t else t.

Definition update_task (task_id : string) (task_update : dict)
    : M (ApiResponse dict) :=
  db ← get_tasks_db;
  if negb (contains task_id db) then task_not_found task_id
  else
    for_each (map_to_list task_update) (update_field task_id);;
    db' ← get_tasks_db;
    t ← getitem db' task_id;
    now ← datetime_now;
    ret (new_ApiResponse true t "Task updated successfully"
           (isoformat now)).

Definition delete_task (task_id : string) : M (ApiResponse dict) :=
  db ← get_tasks_db;
  if negb (contains task_id db) then task_not_found task_id
  else
    put_tasks_db (delete task_id db);;
    now ← datetime_now;
    ret (new_ApiResponse true
           (<["message" := VStr "Task deleted successfully"]> ∅)
           "Task deleted successfully" (isoformat now)).

(** *** User stories *)

Definition get_user_stories : M (ApiResponse (list dict)) :=
  db ← get_user_stories_db;
  now ← datetime_now;
  ret (new_ApiResponse true (map snd (map_to_list db))
         "User stories retrieved successfully" (isoformat now)).

Definition get_user_story (story_id : string) : M (ApiResponse dict) :=
  db ← get_user_stories_db;
  if negb (contains story_id db) then
    now ← datetime_now;
    raise (HTTPException 404
             (error_detail "STORY_NOT_FOUND"
                ("User story with ID " +:+ story_id +:+ " not found")
                (isoformat now)))
  else
    s ← getitem db story_id;
    now ← datetime_now;
    ret (new_ApiResponse true s "User story retrieved successfully"
           (isoformat now)).

Definition create_user_story (story : UserStory)
    : M (ApiResponse UserStory) :=
  db ← get_user_stories_db;
  let story_id := "story_" +:+ Fmt.zfill 3 (size db + 1) in
  let story := set_story_id story story_id in
  put_user_stories_db (<[story_id := UserStory_dict story]> db);;
  now ← datetime_now;
  ret (new_ApiResponse true story "User story created successfully"
         (isoformat now)).

(** *** Informational and demonstration endpoints *)

Definition root : M (ApiResponse dict) :=
  now ← datetime_now;
  ret (new_ApiResponse true
         (<["message" := VStr "Welcome to Day 1 API Learning!"]>
         (<["version" := VStr "1.0.0"]>
         (<["endpoints" :=
              VDict [("health", VStr "/health");
                     ("tasks", VStr "/tasks");
                     ("user_stories", VStr "/user-stories");
                     ("docs", VStr "/docs")]]> ∅)))
         "API is running successfully" (isoformat now)).

Definition health_check : M (ApiResponse HealthResponse) :=
  now ← datetime_now;
  now' ← datetime_now;
  ret (new_ApiResponse true
         (mk_HealthResponse "healthy" (isoformat now) "1.0.0")
         "Service is healthy" (isoformat now')).

Definition demonstrate_envelope_pattern : M (ApiResponse dict) :=
  now ← datetime_now;
  ret (new_ApiResponse true
         (<["example" := VStr "This is wrapped in an envelope"]>
         (<["benefits" :=
              VList [VStr "Consistent response structure";
                     VStr "Metadata included (timestamp, version)";
                     VStr "Clear success/failure indication";
                     VStr "Extensible for future needs"]]> ∅))
         "Envelope pattern demonstration" (isoformat now)).

Definition demonstrate_direct_response : M dict :=
  ret (<["example" := VStr "This is a direct response"]>
      (<["drawbacks" :=
           VList [VStr "No consistent structure";
                  VStr "No metadata";
                  VStr "Harder to handle errors uniformly";
                  VStr "Less extensible"]]> ∅)).

Definition demonstrate_400 : M Empty_set :=
  now ← datetime_now;
  raise (HTTPException 400
           (error_detail "BAD_REQUEST" "Bad request - invalid parameters"
              (isoformat now))).

Definition demonstrate_404 : M Empty_set :=
  now ← datetime_now;
  raise (HTTPException 404
           (error_detail "NOT_FOUND" "Resource not found" (isoformat now))).

Definition demonstrate_500 : M Empty_set :=
  now ← datetime_now;
  raise (HTTPException 500
           (error_detail "INTERNAL_ERROR" "Internal server error"
              (isoformat now))).

(** *** The route table

    One constructor per decorated handler, carrying the path parameter or
    the parsed body the framework hands to it. *)

Inductive request : Type :=
| GET_root
| GET_health
| GET_tasks
| GET_task (task_id : string)
| POST_tasks (task_request : CreateTaskRequest)
| PUT_task (task_id : string) (task_update : dict)
| DELETE_task (task_id : string)
| GET_user_stories
| GET_user_story (story_id : string)
| POST_user_stories (story : UserStory)
| GET_response_patterns_envelope
| GET_response_patterns_direct
| GET_error_400
| GET_error_404
| GET_error_500.

(** What leaves a handler: an envelope it returned (with the status code of
    its decorator), the [detail] of an [HTTPException] it raised, a bare
    dictionary it returned, or an exception nobody handles. *)
Inductive response : Type :=
| Enveloped (status_code : nat) {T : Type} (body : ApiResponse T)
| ErrorEnvelope (status_code : nat) (detail : dict)
| Unwrapped (status_code : nat) (body : dict)
| Unhandled (e : exn).

Definition respond {A} (wrap : A -> response) (m : M A)
    : world -> response * world :=
  fun w =>
    match m w with
    | (Return a, w') => (wrap a, w')
    | (Raise (HTTPException status_code detail), w') =>
        (ErrorEnvelope status_code detail, w')
    | (Raise e, w') => (Unhandled e, w')
    end.

(** The three error demonstrations never return. *)
Definition no_return (x : Empty_set) : response := match x with end.

Definition dispatch (r : request) : world -> response * world :=
  match r with
  | GET_root => respond (Enveloped 200) root
  | GET_health => respond (Enveloped 200) health_check
  | GET_tasks => respond (Enveloped 200) get_tasks
  | GET_task task_id => respond (Enveloped 200) (get_task task_id)
  | POST_tasks task_request =>
      respond (Enveloped 201) (create_task task_request)
  | PUT_task task_id task_update =>
      respond (Enveloped 200) (update_task task_id task_update)
  | DELETE_task task_id => respond (Enveloped 200) (delete_task task_id)
  | GET_user_stories => respond (Enveloped 200) get_user_stories
  | GET_user_story story_id =>
      respond (Enveloped 200) (get_user_story story_id)
  | POST_user_stories story =>
      respond (Enveloped 201) (create_user_story story)
  | GET_response_patterns_envelope =>
      respond (Enveloped 200) demonstrate_envelope_pattern
  | GET_response_patterns_direct =>
      respond (Unwrapped 200) demonstrate_direct_response
  | GET_error_400 => respond no_return demonstrate_400
  | GET_error_404 => respond no_return demonstrate_404
  | GET_error_500 => respond no_return demonstrate_500
  end.

End Handlers.

Arguments Enveloped status_code {T} body.

(** *** Shapes of responses *)

(** The NotFound response of the task endpoints. *)
Definition is_task_not_found (r : response) : Prop :=
  match r with
  | ErrorEnvelope status_code detail =>
      status_code = 404 ∧
      detail !! "success" = Some (VBool false) ∧
      detail !! "error" = Some (VStr "TASK_NOT_FOUND")
  | _ => False
  end.

(** A returned envelope with [success=True] under the given status code. *)
Definition is_success (status : nat) (r : response) : Prop :=
  match r with
  | Enveloped status_code body => status_code = status ∧ success body = true
  | _ => False
  end.



Definition is_direct (r : request) : bool :=
  match r with
  | GET_response_patterns_direct => true
  | _ => false
  end.

(** The [id] field of the record stored under key [k], if any. *)
Definition stored_id (w : world) (k : string) : option value :=
  tasks_db w !! k ≫= (λ t : dict, t !! "id").

(** The id carried by the task a [create_task] outcome returns. *)
Definition created_id (o : outcome (ApiResponse Task) * world)
    : option string :=
  match fst o with
  | Return body => task_id_ <$> data body
  | Raise _ => None
  end.

(** Every stored task carries its own key in its [id] field. *)
Definition ids_consistent (db : gmap string dict) : Prop :=
  ∀ (k : string) (t : dict), db !! k = Some t → t !! "id" = Some (VStr k).

(** The request is a [PUT /tasks/{id}] whose payload has the key [id]. *)
Definition supplies_id (r : request) : bool :=
  match r with
  | PUT_task _ task_update => contains "id" task_update
  | _ => false
  end.

(** *** The stores as the module initialises them *)

Definition seed_task (id title description status created_at user_story
    : string) : dict :=
  <["id" := VStr id]>
  (<["title" := VStr title]>
  (<["description" := VStr description]>
  (<["status" := VStr status]>
  (<["created_at" := VStr created_at]>
  (<["user_story" := VStr user_story]> ∅))))).

Definition initial_tasks_db : gmap string dict :=
  <["task_001" :=
      seed_task "task_001" "Learn FastAPI"
        "Build your first API with FastAPI" "in_progress"
        "2024-01-15T10:00:00Z"
        "As a developer, I want to learn FastAPI so that I can build modern APIs quickly"]>
  (<["task_002" :=
      seed_task "task_002" "Understand REST"
        "Learn REST principles and HTTP methods" "completed"
        "2024-01-14T09:00:00Z"
        "As a developer, I want to understand REST principles so that I can design better APIs"]> ∅).

Definition seed_story (id as_a i_want so_that : string)
    (acceptance_criteria : list string) (priority : string) : dict :=
  UserStory_dict
    (mk_UserStory id as_a i_want so_that acceptance_criteria priority).

Definition initial_user_stories_db : gmap string dict :=
  <["story_001" :=
      seed_story "story_001" "project manager"
        "to see all tasks for my team"
        "I can track progress and identify blockers"
        ["Can view all tasks in a project"; "Can filter by status";
         "Can see task assignments"] "high"]>
  (<["story_002" :=
      seed_story "story_002" "developer" "to update task status"
        "I can keep the team informed of my progress"
        ["Can change status to in_progress"; "Can mark tasks as completed";
         "Can add comments to tasks"] "medium"]> ∅).

Definition initial_world : world :=
  mk_world initial_tasks_db initial_user_stories_db 0.

(** A clock for the examples: 15 January 2024, 10:00, one second per call. *)
Definition example_clock (n : nat) : datetime :=
  mk_datetime 2024 1 15 10 0 n 0.

(** ** Model of [TaskAnalyticsServicer.BatchUpdateTasks] *)

Module Grpc.

Record TaskUpdateRequest : Type := mk_TaskUpdateRequest {
  task_id : string;
  new_status : string;
  user_id : string
}.

(** The two counters are Python integers while the loop runs; they are
    kept as naturals here. *)
Record BatchResponse : Type := mk_BatchResponse {
  successful_updates : nat;
  failed_updates : nat;
  error_messages : list string
}.

(** [f"Failed to update {request.task_id}"] *)
Definition failure_message (request : TaskUpdateRequest) : string :=
  "Failed to update " +:+ task_id request.

Section Servicer.

(** The pseudo-random generator behind [random.random()]: a state and a
    draw that yields a float and the next state. *)
Variable rng : Type.
Variable random : rng -> float * rng.

(** [self]: the mock task table, and the generator the process draws from. *)
Record servicer : Type := mk_servicer {
  mock_tasks : gmap string (gmap string string);
  gen : rng
}.

(** The local variables of the loop, with [self]. *)
Record batch_state : Type := mk_batch_state {
  acc_successful : nat;
  acc_failed : nat;
  acc_errors : list string;
  acc_self : servicer
}.

(** The body of [for request in request_iterator]. *)
Definition batch_step (st : batch_state) (request : TaskUpdateRequest)
    : batch_state :=
  let self := acc_self st in
  let '(x, g) := random (gen self) in
  if PrimFloat.ltb x 0.2%float then
    mk_batch_state (acc_successful st) (acc_failed st + 1)
      (acc_errors st ++ [failure_message request])%list
      (mk_servicer (mock_tasks self) g)
  else
    let tasks :=
      match mock_tasks self !! task_id request with
      | Some t =>
          <[task_id request := <["status" := new_status request]> t]>
            (mock_tasks self)
      | None => mock_tasks self
      end in
    mk_batch_state (acc_successful st + 1) (acc_failed st) (acc_errors st)
      (mk_servicer tasks g).

Definition BatchUpdateTasks (self : servicer)
    (request_iterator : list TaskUpdateRequest)
    : BatchResponse * servicer :=
  let st :=
    foldl batch_step (mk_batch_state 0 0 [] self) request_iterator in
  (mk_BatchResponse (acc_successful st) (acc_failed st) (acc_errors st),
   acc_self st).

(** The requests of a stream whose draw falls under the failure rate,
    in order: the items that fail. *)
Fixpoint failed_items (g : rng) (requests : list TaskUpdateRequest)
    : list TaskUpdateRequest :=
  match requests with
  | [] => []
  | request :: rest =>
      let '(x, g') := random g in
      if PrimFloat.ltb x 0.2%float
      then request :: failed_items g' rest
      else failed_items g' rest
  end.

End Servicer.

Arguments mk_servicer {rng} _ _.
Arguments mock_tasks {rng} _.
Arguments gen {rng} _.

(** The table the servicer starts from. *)
Definition initial_mock_tasks : gmap string (gmap string string) :=
  <["task_001" := <["title" := "Implement API"]>
     (<["status" := "in_progress"]> (<["assigned_to" := "alice"]> ∅))]>
  (<["task_002" := <["title" := "Write tests"]>
     (<["status" := "completed"]> (<["assigned_to" := "bob"]> ∅))]>
  (<["task_003" := <["title" := "Code review"]>
     (<["status" := "pending"]> (<["assigned_to" := "charlie"]> ∅))]>
  (<["task_004" := <["title" := "Deploy to staging"]>
     (<["status" := "overdue"]> (<["assigned_to" := "diana"]> ∅))]> ∅))).

(** A generator for the examples: it replays a fixed list of draws and
    yields [0.5] once the list is exhausted. *)
Definition replay (draws : list float) : float * list float :=
  match draws with
  | [] => (0.5%float, [])
  | x :: rest => (x, rest)
  end.

(** *** The other three RPCs of the servicer *)

Record TeamRequest : Type := mk_TeamRequest {
  team_id : string;
  days_back : Z
}.

Record TaskMetric : Type := mk_TaskMetric {
  metric_task_id : string;
  metric_title : string;
  days_to_complete : Z;
  complexity : string
}.

Record TeamPerformance : Type := mk_TeamPerformance {
  perf_team_id : string;
  completed_tasks : Z;
  overdue_tasks : Z;
  velocity : float;
  task_metrics : list TaskMetric
}.



Record TaskCollaboration : Type := mk_TaskCollaboration {
  collab_task_id : string;
  collab_user_id : string;
  collab_action : string;
  collab_data : string;
  collab_timestamp : Z
}.

(** The requests of a stream whose draw does not fall under the failure
    rate, in order: the items that succeed. *)
Fixpoint succeeded_items {rng : Type} (random : rng -> float * rng)
    (g : rng) (requests : list TaskUpdateRequest)
    : list TaskUpdateRequest :=
  match requests with
  | [] => []
  | request :: rest =>
      let '(x, g') := random g in
      if PrimFloat.ltb x 0.2%float
      then succeeded_items random g' rest
      else request :: succeeded_items random g' rest
  end.

(** The status a task is left with by a list of successful requests:
    the [new_status] of the last one addressed to it, if any. *)
Definition final_record (k : string) (succeeded : list TaskUpdateRequest)
    (t : gmap string string) : gmap string string :=
  match last (filter (λ r, task_id r = k) succeeded) with
  | Some r => <["status" := new_status r]> t
  | None => t
  end.

(** Every task of the table has a [title]. *)
Definition titled (tasks : gmap string (gmap string string)) : Prop :=
  ∀ (k : string) (t : gmap string string),
    tasks !! k = Some t → is_Some (t !! "title").

Section Analytics.

Variable rng : Type.

(** [random.randint(a, b)] and [random.choice(seq)] on the generator. *)
Variable randint : rng -> Z -> Z -> Z * rng.
Variable choice : rng -> list string -> string * rng.

(** [int(time.time())] at the [i]-th iteration of a streaming loop, and
    the answer of the [i]-th call of [context.is_active()]. *)
Variable time : nat -> Z.
Variable is_active : nat -> bool.

(** The loop state of [GetTeamPerformance]: the metrics so far, or [None]
    once [task_data["title"]] has raised [KeyError]. *)
Definition metric_step (acc : option (list TaskMetric) * rng)
    (item : string * gmap string string)
    : option (list TaskMetric) * rng :=
  match acc with
  | (None, g) => (None, g)
  | (Some task_metrics, g) =>
      match snd item !! "title" with
      | None => (None, g)
      | Some title =>
          let '(days, g1) := randint g 1 10 in
          let '(cx, g2) := choice g1 ["low"; "medium"; "high"] in
          (Some (task_metrics ++ [mk_TaskMetric (fst item) title days cx])%list,
           g2)
      end
  end.

(** [None] stands for the [KeyError] of a task without title.  The
    table is walked in the map's own order of keys, not in insertion
    order. *)
Definition GetTeamPerformance (self : servicer rng) (request : TeamRequest)
    : option TeamPerformance * servicer rng :=
  let '(task_metrics, g) :=
    foldl metric_step (Some [], gen self) (map_to_list (mock_tasks self)) in
  (mk_TeamPerformance (team_id request) 1 1 12.5%float <$> task_metrics,
   mk_servicer (mock_tasks self) g).



(** The loop of [CollaborateOnTask] from iteration [i] on. *)
Fixpoint collaborate_from (i : nat)
    (request_iterator : list TaskCollaboration) : list TaskCollaboration :=
  match request_iterator with
  | [] => []
  | request :: rest =>
      mk_TaskCollaboration (collab_task_id request) "server" "acknowledge"
        ("Received: " +:+ collab_data request) (time i)
      :: collaborate_from (S i) rest
  end.

Definition CollaborateOnTask (request_iterator : list TaskCollaboration)
    : list TaskCollaboration :=
  collaborate_from 0 request_iterator.

End Analytics.

End Grpc.

(** ** Further notions used to state properties of the handlers *)

(** Reading a decimal numeral back, leading zeros allowed: [int(s)] on a
    string of digits. *)
Definition read_decimal (s : string) : option nat :=
  Nat.of_uint <$> NilEmpty.uint_of_string s.

(** The handlers whose body assigns to or deletes from [tasks_db]. *)
Definition mutates_tasks (r : request) : bool :=
  match r with
  | POST_tasks _ => true
  | PUT_task _ _ => true
  | DELETE_task _ => true
  | _ => false
  end.

(** The only handler whose body assigns to [user_stories_db]. *)
Definition mutates_stories (r : request) : bool :=
  match r with
  | POST_user_stories _ => true
  | _ => false
  end.

Definition is_delete (r : request) : bool :=
  match r with
  | DELETE_task _ => true
  | _ => false
  end.

(** The keys of the store are exactly the ids generated for positions
    [1 .. size]: what the seeded stores look like, and what a run of
    creations keeps. *)
Definition dense (prefix : string) (db : gmap string dict) : Prop :=
  ∀ k : string,
    is_Some (db !! k) ↔
    ∃ i : nat, 1 ≤ i ≤ size db ∧ k = prefix +:+ Fmt.zfill 3 i.

(** The NotFound response of [/user-stories/{id}]. *)
Definition is_story_not_found (r : response) : Prop :=
  match r with
  | ErrorEnvelope status_code detail =>
      status_code = 404 ∧
      detail !! "success" = Some (VBool false) ∧
      detail !! "error" = Some (VStr "STORY_NOT_FOUND")
  | _ => False
  end.

(** The status code a handler's decorator fixes for a returned value. *)
Definition success_status (r : request) : nat :=
  match r with
  | POST_tasks _ => 201
  | POST_user_stories _ => 201
  | _ => 200
  end.

(** A returned envelope reports success under the decorator's status and
    carries data and a message; a raised one reports failure under an
    error status and carries a non-empty error code and no data. *)
Definition status_agrees (expected : nat) (r : response) : Prop :=
  match r with
  | Enveloped status_code body =>
      status_code = expected ∧ success body = true ∧
      is_Some (data body) ∧ is_Some (message body)
  | ErrorEnvelope status_code detail =>
      (status_code = 400 ∨ status_code = 404 ∨ status_code = 500) ∧
      detail !! "success" = Some (VBool false) ∧
      (∃ code : string, detail !! "error" = Some (VStr code) ∧ code ≠ "") ∧
      detail !! "data" = None
  | Unwrapped _ _ => False
  | Unhandled _ => False
  end.

(** ** The framework around the handlers

    What FastAPI does before and after a handler runs.  Before: it parses
    the JSON body into the type the handler declares and, when the body
    does not fit, answers 422 itself without calling the handler.  After:
    it checks the returned value against the decorator's
    [response_model] and, when the value does not fit, answers a bare
    text 500; it sends a raised [HTTPException] under the raised status
    with the raised [detail] (under the key [detail] of the body). *)

Definition is_str (o : option value) : bool :=
  match o with
  | Some (VStr _) => true
  | _ => false
  end.

(** A field declared [Optional[str] = None]. *)
Definition is_opt_str (o : option value) : bool :=
  match o with
  | None => true
  | Some VNone => true
  | Some (VStr _) => true
  | _ => false
  end.

(** A field declared [str] with a default. *)
Definition is_str_or_missing (o : option value) : bool :=
  match o with
  | None => true
  | Some (VStr _) => true
  | _ => false
  end.

Definition is_str_value (v : value) : bool :=
  match v with
  | VStr _ => true
  | _ => false
  end.

Definition is_str_list (o : option value) : bool :=
  match o with
  | Some (VList l) => forallb is_str_value l
  | _ => false
  end.

(** The dictionary fits the model [Task]. *)
Definition valid_Task (d : dict) : bool :=
  is_str (d !! "id") && is_str (d !! "title") &&
  is_str (d !! "description") && is_str (d !! "status") &&
  is_str (d !! "created_at") && is_opt_str (d !! "user_story").

(** The dictionary fits the model [UserStory]. *)
Definition valid_UserStory (d : dict) : bool :=
  is_str (d !! "id") && is_str (d !! "as_a") && is_str (d !! "i_want") &&
  is_str (d !! "so_that") && is_str_list (d !! "acceptance_criteria") &&
  is_str_or_missing (d !! "priority").

(** A model instance, or a plain [dict] under [ApiResponse[dict]]: nothing
    to refuse. *)
Definition any_value {A} (_ : A) : bool := true.

(** What the client gets: the response a handler produced, or one of the
    framework's own answers, neither of which carries an envelope: 422
    with the list of validation errors, 500 with the text
    [Internal Server Error]. *)
Inductive reply : Type :=
| Handled (r : response)
| Unprocessable
| InternalServerError.

(** A handler under [response_model=ApiResponse[...]]: [ok] is the check
    of the returned [data] against the model's parameter. *)
Definition checked {A} (ok : A -> bool) (status_code : nat)
    (m : M (ApiResponse A)) : world -> reply * world :=
  fun w =>
    match m w with
    | (Return body, w') =>
        if match data body with
           | Some x => ok x
           | None => true
           end
        then (Handled (Enveloped status_code body), w')
        else (InternalServerError, w')
    | (Raise (HTTPException status_code' detail), w') =>
        (Handled (ErrorEnvelope status_code' detail), w')
    | (Raise (KeyError _), w') => (InternalServerError, w')
    end.

(** A handler without [response_model]. *)
Definition unchecked {A} (wrap : A -> response) (m : M A)
    : world -> reply * world :=
  fun w =>
    match m w with
    | (Return a, w') => (Handled (wrap a), w')
    | (Raise (HTTPException status_code detail), w') =>
        (Handled (ErrorEnvelope status_code detail), w')
    | (Raise (KeyError _), w') => (InternalServerError, w')
    end.

(** A request whose arguments are already of the handler's types, served
    with the decorator's response model. *)
Definition serve_typed (clock : nat -> datetime) (r : request)
    : world -> reply * world :=
  match r with
  | GET_root => checked any_value 200 (root clock)
  | GET_health => checked any_value 200 (health_check clock)
  | GET_tasks => checked (forallb valid_Task) 200 (get_tasks clock)
  | GET_task task_id => checked valid_Task 200 (get_task clock task_id)
  | POST_tasks task_request =>
      checked any_value 201 (create_task clock task_request)
  | PUT_task task_id task_update =>
      checked valid_Task 200 (update_task clock task_id task_update)
  | DELETE_task task_id => checked any_value 200 (delete_task clock task_id)
  | GET_user_stories =>
      checked (forallb valid_UserStory) 200 (get_user_stories clock)
  | GET_user_story story_id =>
      checked valid_UserStory 200 (get_user_story clock story_id)
  | POST_user_stories story =>
      checked any_value 201 (create_user_story clock story)
  | GET_response_patterns_envelope =>
      checked any_value 200 (demonstrate_envelope_pattern clock)
  | GET_response_patterns_direct =>
      unchecked (Unwrapped 200) demonstrate_direct_response
  | GET_error_400 => unchecked no_return (demonstrate_400 clock)
  | GET_error_404 => unchecked no_return (demonstrate_404 clock)
  | GET_error_500 => unchecked no_return (demonstrate_500 clock)
  end.

(** A request as it arrives: path parameters are strings, bodies are
    JSON values not yet checked against anything. *)
Inductive raw_request : Type :=
| RAW_GET_root
| RAW_GET_health
| RAW_GET_tasks
| RAW_GET_task (task_id : string)
| RAW_POST_tasks (body : value)
| RAW_PUT_task (task_id : string) (body : value)
| RAW_DELETE_task (task_id : string)
| RAW_GET_user_stories
| RAW_GET_user_story (story_id : string)
| RAW_POST_user_stories (body : value)
| RAW_GET_response_patterns_envelope
| RAW_GET_response_patterns_direct
| RAW_GET_error_400
| RAW_GET_error_404
| RAW_GET_error_500.

(** The Python [dict] of a JSON object: of two members with the same
    name the later one stays. *)
Definition dict_of_object (members : list (string * value)) : dict :=
  list_to_map (reverse members).

Fixpoint strings_of (l : list value) : option (list string) :=
  match l with
  | [] => Some []
  | VStr s :: l' =>
      match strings_of l' with
      | Some ss => Some (s :: ss)
      | None => None
      end
  | _ :: _ => None
  end.

(** The body of POST /tasks against [CreateTaskRequest]. *)
Definition parse_CreateTaskRequest (body : value)
    : option CreateTaskRequest :=
  match body with
  | VDict members =>
      let d := dict_of_object members in
      match d !! "title", d !! "description" with
      | Some (VStr title), Some (VStr description) =>
          match d !! "user_story" with
          | None => Some (mk_CreateTaskRequest title description None)
          | Some VNone => Some (mk_CreateTaskRequest title description None)
          | Some (VStr user_story) =>
              Some (mk_CreateTaskRequest title description (Some user_story))
          | Some _ => None
          end
      | _, _ => None
      end
  | _ => None
  end.

(** The body of PUT /tasks/{id} against [dict]. *)
Definition parse_task_update (body : value) : option dict :=
  match body with
  | VDict members => Some (dict_of_object members)
  | _ => None
  end.

(** The body of POST /user-stories against [UserStory]. *)
Definition parse_UserStory (body : value) : option UserStory :=
  match body with
  | VDict members =>
      let d := dict_of_object members in
      match d !! "id", d !! "as_a", d !! "i_want", d !! "so_that",
            d !! "acceptance_criteria" with
      | Some (VStr id), Some (VStr as_a), Some (VStr i_want),
        Some (VStr so_that), Some (VList criteria) =>
          match strings_of criteria, d !! "priority" with
          | Some acceptance_criteria, None =>
              Some (mk_UserStory id as_a i_want so_that
                      acceptance_criteria "medium")
          | Some acceptance_criteria, Some (VStr priority) =>
              Some (mk_UserStory id as_a i_want so_that
                      acceptance_criteria priority)
          | _, _ => None
          end
      | _, _, _, _, _ => None
      end
  | _ => None
  end.

(** [None]: the framework refuses the request with 422. *)
Definition validate (raw : raw_request) : option request :=
  match raw with
  | RAW_GET_root => Some GET_root
  | RAW_GET_health => Some GET_health
  | RAW_GET_tasks => Some GET_tasks
  | RAW_GET_task task_id => Some (GET_task task_id)
  | RAW_POST_tasks body => POST_tasks <$> parse_CreateTaskRequest body
  | RAW_PUT_task task_id body => PUT_task task_id <$> parse_task_update body
  | RAW_DELETE_task task_id => Some (DELETE_task task_id)
  | RAW_GET_user_stories => Some GET_user_stories
  | RAW_GET_user_story story_id => Some (GET_user_story story_id)
  | RAW_POST_user_stories body => POST_user_stories <$> parse_UserStory body
  | RAW_GET_response_patterns_envelope => Some GET_response_patterns_envelope
  | RAW_GET_response_patterns_direct => Some GET_response_patterns_direct
  | RAW_GET_error_400 => Some GET_error_400
  | RAW_GET_error_404 => Some GET_error_404
  | RAW_GET_error_500 => Some GET_error_500
  end.

Definition serve (clock : nat -> datetime) (raw : raw_request)
    : world -> reply * world :=
  fun w =>
    match validate raw with
    | Some r => serve_typed clock r w
    | None => (Unprocessable, w)
    end.

Definition is_put (r : request) : bool :=
  match r with
  | PUT_task _ _ => true
  | _ => false
  end.

Definition raw_is_direct (raw : raw_request) : bool :=
  match raw with
  | RAW_GET_response_patterns_direct => true
  | _ => false
  end.

Definition raw_is_put (raw : raw_request) : bool :=
  match raw with
  | RAW_PUT_task _ _ => true
  | _ => false
  end.

Definition raw_success_status (raw : raw_request) : nat :=
  match raw with
  | RAW_POST_tasks _ => 201
  | RAW_POST_user_stories _ => 201
  | _ => 200
  end.

(** The model [Task], field by field: [id], [title], [description],
    [status] and [created_at] hold strings; [user_story] is missing,
    [None] or a string. *)
Definition fits_Task (d : dict) : Prop :=
  (∃ s : string, d !! "id" = Some (VStr s)) ∧
  (∃ s : string, d !! "title" = Some (VStr s)) ∧
  (∃ s : string, d !! "description" = Some (VStr s)) ∧
  (∃ s : string, d !! "status" = Some (VStr s)) ∧
  (∃ s : string, d !! "created_at" = Some (VStr s)) ∧
  (d !! "user_story" = None ∨ d !! "user_story" = Some VNone ∨
   ∃ s : string, d !! "user_story" = Some (VStr s)).

(** The model [UserStory], field by field: [id], [as_a], [i_want] and
    [so_that] hold strings; [acceptance_criteria] holds a list of
    strings; [priority] is missing or a string. *)
Definition fits_UserStory (d : dict) : Prop :=
  (∃ s : string, d !! "id" = Some (VStr s)) ∧
  (∃ s : string, d !! "as_a" = Some (VStr s)) ∧
  (∃ s : string, d !! "i_want" = Some (VStr s)) ∧
  (∃ s : string, d !! "so_that" = Some (VStr s)) ∧
  (∃ l : list string,
     d !! "acceptance_criteria" = Some (VList (map VStr l))) ∧
  (d !! "priority" = None ∨ ∃ s : string, d !! "priority" = Some (VStr s)).

(** Every stored record fits its model. *)
Definition store_valid (w : world) : Prop :=
  (∀ (k : string) (t : dict), tasks_db w !! k = Some t → fits_Task t) ∧
  (∀ (k : string) (s : dict),
     user_stories_db w !! k = Some s → fits_UserStory s).

(** Every stored record passes the framework's check. *)
Definition store_checks (w : world) : Prop :=
  (∀ (k : string) (t : dict),
     tasks_db w !! k = Some t → valid_Task t = true) ∧
  (∀ (k : string) (s : dict),
     user_stories_db w !! k = Some s → valid_UserStory s = true).

(** * Properties *)

(** ** Formatting *)



(** ** Dictionaries *)

Lemma contains_true {V} (k : string) (d : gmap string V) :
  contains k d = true ↔ is_Some (d !! k).
Proof.
  unfold contains. destruct (d !! k) as [v|] eqn:E.
  - split; [eauto | done].
  - split; [done | intros [v Hv]; discriminate].
Qed.

Lemma overwrite_lookup_eq (t : dict) (k : string) (v : value) :
  overwrite t (k, v) !! k = match t !! k with
                            | Some _ => Some v
                            | None => None
                            end.
Proof.
  unfold overwrite, contains. simpl.
  destruct (t !! k) eqn:E; [apply lookup_insert_eq | exact E].
Qed.

Lemma overwrite_lookup_ne (t : dict) (k k' : string) (v : value) :
  k ≠ k' → overwrite t (k, v) !! k' = t !! k'.
Proof.
  intros Hne. unfold overwrite, contains. simpl.
  destruct (t !! k); [by apply lookup_insert_ne | done].
Qed.

(** With distinct keys in the payload, the loop leaves under each key of
    the record the payload's value when it has one and the old value
    otherwise, and adds no key. *)
Lemma foldl_overwrite_lookup (l : list (string * value)) :
  NoDup l.*1 →
  ∀ (t : dict) (k : string),
    foldl overwrite t l !! k =
      match t !! k with
      | Some old => Some (default old ((list_to_map l : dict) !! k))
      | None => None
      end.
Proof.
  induction l as [|[k0 v0] l IH]; intros Hnd t k; simpl.
  - rewrite lookup_empty. by destruct (t !! k).
  - apply NoDup_cons in Hnd as [Hk0 Hnd].
    rewrite (IH Hnd). destruct (decide (k0 = k)) as [->|Hne].
    + rewrite overwrite_lookup_eq, lookup_insert_eq.
      rewrite (not_elem_of_list_to_map_1 (M:=gmap string) l k Hk0).
      by destruct (t !! k).
    + rewrite (overwrite_lookup_ne _ _ _ _ Hne).
      by rewrite lookup_insert_ne.
Qed.

Lemma overwrite_all_lookup (t task_update : dict) (k : string) :
  foldl overwrite t (map_to_list task_update) !! k =
    match t !! k with
    | Some old => Some (default old (task_update !! k))
    | None => None
    end.
Proof.
  rewrite foldl_overwrite_lookup by apply NoDup_fst_map_to_list.
  by rewrite list_to_map_to_list.
Qed.

(** ** Running the handlers *)

Section HandlerFacts.

Variable clock : nat -> datetime.

Lemma task_not_found_run {A} (task_id : string) (w : world) :
  task_not_found clock (A:=A) task_id w =
    (Raise (HTTPException 404
              (error_detail "TASK_NOT_FOUND"
                 ("Task with ID " +:+ task_id +:+ " not found")
                 (isoformat (clock (ticks w))))),
     mk_world (tasks_db w) (user_stories_db w) (S (ticks w))).
Proof. reflexivity. Qed.

Lemma get_task_absent (task_id : string) (w : world) :
  tasks_db w !! task_id = None →
  get_task clock task_id w = task_not_found clock task_id w.
Proof.
  intros H. unfold get_task, mbind, M_bind, bind, get_tasks_db, contains.
  by rewrite H.
Qed.

Lemma update_task_absent (task_id : string) (task_update : dict) (w : world) :
  tasks_db w !! task_id = None →
  update_task clock task_id task_update w = task_not_found clock task_id w.
Proof.
  intros H. unfold update_task, mbind, M_bind, bind, get_tasks_db, contains.
  by rewrite H.
Qed.

Lemma delete_task_absent (task_id : string) (w : world) :
  tasks_db w !! task_id = None →
  delete_task clock task_id w = task_not_found clock task_id w.
Proof.
  intros H. unfold delete_task, mbind, M_bind, bind, get_tasks_db, contains.
  by rewrite H.
Qed.

Lemma get_task_present (task_id : string) (t : dict) (w : world) :
  tasks_db w !! task_id = Some t →
  get_task clock task_id w =
    (Return (new_ApiResponse true t "Task retrieved successfully"
               (isoformat (clock (ticks w)))),
     mk_world (tasks_db w) (user_stories_db w) (S (ticks w))).
Proof.
  intros H.
  unfold get_task, mbind, M_bind, bind, get_tasks_db, contains, getitem.
  by rewrite H.
Qed.

Lemma delete_task_present (task_id : string) (t : dict) (w : world) :
  tasks_db w !! task_id = Some t →
  delete_task clock task_id w =
    (Return (new_ApiResponse true
               (<["message" := VStr "Task deleted successfully"]> ∅)
               "Task deleted successfully" (isoformat (clock (ticks w)))),
     mk_world (delete task_id (tasks_db w)) (user_stories_db w)
              (S (ticks w))).
Proof.
  intros H.
  unfold delete_task, mbind, M_bind, bind, get_tasks_db, contains.
  by rewrite H.
Qed.

Lemma update_field_run (task_id : string) (kv : string * value)
    (w : world) (t : dict) :
  tasks_db w !! task_id = Some t →
  update_field task_id kv w =
    (Return tt,
     mk_world (<[task_id := overwrite t kv]> (tasks_db w))
              (user_stories_db w) (ticks w)).
Proof.
  destruct w as [db us n]. simpl. intros H.
  cbv [update_field mbind M_bind bind get_tasks_db getitem tasks_db].
  rewrite H. unfold overwrite, ret, put_tasks_db.
  destruct (contains kv.1 t); simpl; [done|].
  by rewrite (insert_id _ _ _ H).
Qed.

(** The loop of [update_task] never fails on a stored task, and rewrites
    only the record under [task_id]. *)
Lemma for_each_update_field (task_id : string) (l : list (string * value)) :
  ∀ (w : world) (t : dict),
    tasks_db w !! task_id = Some t →
    for_each l (update_field task_id) w =
      (Return tt,
       mk_world (<[task_id := foldl overwrite t l]> (tasks_db w))
                (user_stories_db w) (ticks w)).
Proof.
  induction l as [|kv l IH]; intros w t H; simpl.
  - destruct w as [db us n]; simpl in *.
    unfold ret. by rewrite (insert_id _ _ _ H).
  - unfold mbind, M_bind, bind.
    rewrite (update_field_run _ _ _ _ H).
    rewrite (IH _ (overwrite t kv)); simpl.
    + by rewrite insert_insert_eq.
    + apply lookup_insert_eq.
Qed.

Lemma update_task_present (task_id : string) (task_update t : dict)
    (w : world) :
  tasks_db w !! task_id = Some t →
  update_task clock task_id task_update w =
    (Return (new_ApiResponse true
               (foldl overwrite t (map_to_list task_update))
               "Task updated successfully" (isoformat (clock (ticks w)))),
     mk_world
       (<[task_id := foldl overwrite t (map_to_list task_update)]>
          (tasks_db w))
       (user_stories_db w) (S (ticks w))).
Proof.
  intros H. unfold update_task, contains.
  unfold mbind at 1, M_bind at 1, bind at 1, get_tasks_db at 1.
  rewrite H. simpl.
  unfold mbind at 1, M_bind at 1, bind at 1.
  rewrite (for_each_update_field _ _ _ _ H).
  unfold mbind, M_bind, bind, get_tasks_db, getitem. simpl.
  by rewrite lookup_insert_eq.
Qed.

Lemma create_task_run (task_request : CreateTaskRequest) (w : world) :
  let task_id := "task_" +:+ Fmt.zfill 3 (size (tasks_db w) + 1) in
  let new_task :=
    mk_Task task_id (req_title task_request)
      (req_description task_request) "pending"
      (isoformat (clock (ticks w))) (req_user_story task_request) in
  create_task clock task_request w =
    (Return (new_ApiResponse true new_task "Task created successfully"
               (isoformat (clock (S (ticks w))))),
     mk_world (<[task_id := Task_dict new_task]> (tasks_db w))
              (user_stories_db w) (S (S (ticks w)))).
Proof. reflexivity. Qed.

Lemma create_user_story_run (story : UserStory) (w : world) :
  let story_id := "story_" +:+ Fmt.zfill 3 (size (user_stories_db w) + 1) in
  let story' := set_story_id story story_id in
  create_user_story clock story w =
    (Return (new_ApiResponse true story' "User story created successfully"
               (isoformat (clock (ticks w)))),
     mk_world (tasks_db w)
              (<[story_id := UserStory_dict story']> (user_stories_db w))
              (S (ticks w))).
Proof. reflexivity. Qed.

End HandlerFacts.

(** ** The task endpoints *)

Lemma error_detail_success (error message timestamp : string) :
  error_detail error message timestamp !! "success" = Some (VBool false).
Proof. unfold error_detail. apply lookup_insert_eq. Qed.

Lemma error_detail_error (error message timestamp : string) :
  error_detail error message timestamp !! "error" = Some (VStr error).
Proof.
  unfold error_detail.
  rewrite lookup_insert_ne by done. apply lookup_insert_eq.
Qed.



Lemma respond_ext {A} (wrap : A → response) (m m' : M A) (w : world) :
  m w = m' w → respond wrap m w = respond wrap m' w.
Proof. unfold respond. by intros ->. Qed.

Lemma task_not_found_response (clock : nat → datetime) {A}
    (wrap : A → response) (task_id : string) (w : world) :
  is_task_not_found (fst (respond wrap (task_not_found clock task_id) w)).
Proof.
  unfold respond. rewrite task_not_found_run. simpl.
  split; [done|]. split; [apply error_detail_success|].
  apply error_detail_error.
Qed.

Lemma task_not_found_keeps_store (clock : nat → datetime) {A}
    (wrap : A → response) (task_id : string) (w : world) :
  tasks_db (snd (respond wrap (task_not_found clock task_id) w)) =
    tasks_db w.
Proof. unfold respond. by rewrite task_not_found_run. Qed.

(** C1: for a task id absent from the store, GET, PUT and DELETE on
    [/tasks/{id}] each answer with HTTP 404 and an error body whose
    [success] is false and whose [error] is [TASK_NOT_FOUND]. *)
Theorem absent_task_is_not_found (clock : nat → datetime)
    (task_id : string) (task_update : dict) (w : world) :
  tasks_db w !! task_id = None →
  is_task_not_found (fst (dispatch clock (GET_task task_id) w)) ∧
  is_task_not_found
    (fst (dispatch clock (PUT_task task_id task_update) w)) ∧
  is_task_not_found (fst (dispatch clock (DELETE_task task_id) w)).
Proof.
  intros H. cbn [dispatch].
  rewrite (respond_ext _ _ _ _ (get_task_absent clock _ _ H)).
  rewrite (respond_ext _ _ _ _
             (update_task_absent clock _ task_update _ H)).
  rewrite (respond_ext _ _ _ _ (delete_task_absent clock _ _ H)).
  repeat split; apply task_not_found_response.
Qed.

Lemma absent_task_is_not_found_witness :
  tasks_db initial_world !! "task_404" = None ∧
  is_task_not_found
    (fst (dispatch example_clock (GET_task "task_404") initial_world)) ∧
  is_task_not_found
    (fst (dispatch example_clock
            (PUT_task "task_404" (<["title" := VStr "X"]> ∅))
            initial_world)) ∧
  is_task_not_found
    (fst (dispatch example_clock (DELETE_task "task_404") initial_world)).
Proof.
  split; [reflexivity|].
  apply (absent_task_is_not_found example_clock "task_404"
           (<["title" := VStr "X"]> ∅) initial_world).
  reflexivity.
Defined.

(** C10: for a task id absent from the store, the failing GET, PUT and
    DELETE on [/tasks/{id}] leave the task store as it was. *)
Theorem not_found_keeps_store (clock : nat → datetime)
    (task_id : string) (task_update : dict) (w : world) :
  tasks_db w !! task_id = None →
  tasks_db (snd (dispatch clock (GET_task task_id) w)) = tasks_db w ∧
  tasks_db (snd (dispatch clock (PUT_task task_id task_update) w)) =
    tasks_db w ∧
  tasks_db (snd (dispatch clock (DELETE_task task_id) w)) = tasks_db w.
Proof.
  intros H. cbn [dispatch].
  rewrite (respond_ext _ _ _ _ (get_task_absent clock _ _ H)).
  rewrite (respond_ext _ _ _ _
             (update_task_absent clock _ task_update _ H)).
  rewrite (respond_ext _ _ _ _ (delete_task_absent clock _ _ H)).
  repeat split; apply task_not_found_keeps_store.
Qed.

Lemma not_found_keeps_store_witness :
  tasks_db initial_world !! "task_404" = None ∧
  tasks_db (snd (dispatch example_clock (GET_task "task_404")
                   initial_world)) = tasks_db initial_world ∧
  tasks_db (snd (dispatch example_clock
                   (PUT_task "task_404" (<["id" := VStr "task_001"]> ∅))
                   initial_world)) = tasks_db initial_world ∧
  tasks_db (snd (dispatch example_clock (DELETE_task "task_404")
                   initial_world)) = tasks_db initial_world.
Proof.
  split; [reflexivity|].
  apply (not_found_keeps_store example_clock "task_404"
           (<["id" := VStr "task_001"]> ∅) initial_world).
  reflexivity.
Defined.

(** C7: deleting a stored task succeeds and removes the record, so the
    GET of the same id that follows is answered NotFound
    (404, [success] false, [TASK_NOT_FOUND]). *)
Theorem delete_then_get_not_found (clock : nat → datetime)
    (task_id : string) (w : world) :
  is_Some (tasks_db w !! task_id) →
  is_success 200 (fst (dispatch clock (DELETE_task task_id) w)) ∧
  tasks_db (snd (dispatch clock (DELETE_task task_id) w)) !! task_id =
    None ∧
  is_task_not_found
    (fst (dispatch clock (GET_task task_id)
            (snd (dispatch clock (DELETE_task task_id) w)))).
Proof.
  intros [t H]. cbn [dispatch]. unfold respond at 1 2 4.
  rewrite (delete_task_present clock _ _ _ H). cbn [fst snd tasks_db].
  split; [done|]. split; [apply lookup_delete_eq|].
  rewrite (respond_ext _ _ (task_not_found clock task_id))
    by (apply get_task_absent; apply lookup_delete_eq).
  apply task_not_found_response.
Qed.

Lemma delete_then_get_not_found_witness :
  is_Some (tasks_db initial_world !! "task_002") ∧
  is_success 200
    (fst (dispatch example_clock (DELETE_task "task_002") initial_world)) ∧
  tasks_db (snd (dispatch example_clock (DELETE_task "task_002")
                   initial_world)) !! "task_002" = None ∧
  is_task_not_found
    (fst (dispatch example_clock (GET_task "task_002")
            (snd (dispatch example_clock (DELETE_task "task_002")
                    initial_world)))).
Proof.
  assert (Hin : is_Some (tasks_db initial_world !! "task_002"))
    by (eexists; reflexivity).
  split; [exact Hin|].
  exact (delete_then_get_not_found example_clock "task_002"
           initial_world Hin).
Defined.

Lemma Task_dict_lookups (t : Task) :
  Task_dict t !! "id" = Some (VStr (task_id_ t)) ∧
  Task_dict t !! "title" = Some (VStr (task_title t)) ∧
  Task_dict t !! "description" = Some (VStr (task_description t)) ∧
  Task_dict t !! "status" = Some (VStr (task_status t)) ∧
  Task_dict t !! "user_story" = Some (VOpt (task_user_story t)).
Proof.
  unfold Task_dict.
  repeat split;
    repeat (rewrite lookup_insert_ne by done); apply lookup_insert_eq.
Qed.

Lemma UserStory_dict_id (s : UserStory) :
  UserStory_dict s !! "id" = Some (VStr (story_id_ s)).
Proof. unfold UserStory_dict. apply lookup_insert_eq. Qed.

(** C2: PUT /tasks/{id} on a stored task answers 200 with the updated
    record; in it, every key of the old record that the payload supplies
    holds the payload's value, every key the payload does not supply
    holds its old value, no key is added, and every other task of the
    store is as before. *)
Theorem update_overwrites_supplied_fields (clock : nat → datetime)
    (task_id : string) (task_update t : dict) (w : world) :
  tasks_db w !! task_id = Some t →
  ∃ (body : ApiResponse dict) (t' : dict) (w1 : world),
    dispatch clock (PUT_task task_id task_update) w =
      (Enveloped 200 body, w1) ∧
    success body = true ∧
    data body = Some t' ∧
    tasks_db w1 !! task_id = Some t' ∧
    (∀ (k : string) (v : value),
       task_update !! k = Some v → is_Some (t !! k) → t' !! k = Some v) ∧
    (∀ k : string, task_update !! k = None → t' !! k = t !! k) ∧
    (∀ k : string, t !! k = None → t' !! k = None) ∧
    (∀ j : string, j ≠ task_id → tasks_db w1 !! j = tasks_db w !! j).
Proof.
  intros H. cbn [dispatch]. unfold respond.
  rewrite (update_task_present clock _ _ _ _ H).
  do 3 eexists. split; [reflexivity|]. split; [reflexivity|].
  split; [reflexivity|]. cbn [tasks_db].
  split; [apply lookup_insert_eq|]. repeat split.
  - intros k v Hk [old Hold].
    by rewrite overwrite_all_lookup, Hold, Hk.
  - intros k Hk. rewrite overwrite_all_lookup, Hk.
    by destruct (t !! k).
  - intros k Hk. by rewrite overwrite_all_lookup, Hk.
  - intros j Hj. by apply lookup_insert_ne.
Qed.

Lemma update_overwrites_supplied_fields_witness :
  let task_update : dict :=
    <["status" := VStr "completed"]> (<["assignee" := VStr "alice"]> ∅) in
  let t :=
    seed_task "task_001" "Learn FastAPI"
      "Build your first API with FastAPI" "in_progress"
      "2024-01-15T10:00:00Z"
      "As a developer, I want to learn FastAPI so that I can build modern APIs quickly" in
  tasks_db initial_world !! "task_001" = Some t ∧
  ∃ (body : ApiResponse dict) (t' : dict) (w1 : world),
    dispatch example_clock (PUT_task "task_001" task_update) initial_world =
      (Enveloped 200 body, w1) ∧
    success body = true ∧
    data body = Some t' ∧
    tasks_db w1 !! "task_001" = Some t' ∧
    (∀ (k : string) (v : value),
       task_update !! k = Some v → is_Some (t !! k) → t' !! k = Some v) ∧
    (∀ k : string, task_update !! k = None → t' !! k = t !! k) ∧
    (∀ k : string, t !! k = None → t' !! k = None) ∧
    (∀ j : string,
       j ≠ "task_001" → tasks_db w1 !! j = tasks_db initial_world !! j).
Proof.
  cbv zeta. split; [reflexivity|].
  apply (update_overwrites_supplied_fields example_clock "task_001").
  reflexivity.
Defined.

Example update_example :
  let w1 :=
    snd (dispatch example_clock
           (PUT_task "task_001"
              (<["status" := VStr "completed"]>
                 (<["assignee" := VStr "alice"]> ∅)))
           initial_world) in
  tasks_db w1 !! "task_001" =
    Some (seed_task "task_001" "Learn FastAPI"
            "Build your first API with FastAPI" "completed"
            "2024-01-15T10:00:00Z"
            "As a developer, I want to learn FastAPI so that I can build modern APIs quickly").
Proof. vm_compute. reflexivity. Qed.

(** ** The [id] field of stored tasks *)

Lemma contains_false {V} (k : string) (d : gmap string V) :
  contains k d = false ↔ d !! k = None.
Proof. unfold contains. destruct (d !! k); split; done. Qed.

Lemma initial_ids_consistent : ids_consistent initial_tasks_db.
Proof.
  intros k t. unfold initial_tasks_db.
  rewrite lookup_insert. case_decide as H1; [intros [= <-]; by subst|].
  rewrite lookup_insert. case_decide as H2; [intros [= <-]; by subst|].
  by rewrite lookup_empty.
Qed.

Lemma ids_consistent_stored_id (w : world) (k : string) :
  ids_consistent (tasks_db w) →
  is_Some (tasks_db w !! k) → stored_id w k = Some (VStr k).
Proof.
  intros Hc [t Ht]. unfold stored_id. rewrite Ht. simpl. by apply Hc.
Qed.

(** Every request other than a PUT that supplies [id] keeps each stored
    task's [id] field equal to its key. *)
Lemma dispatch_ids_consistent (clock : nat → datetime) (r : request)
    (w : world) :
  ids_consistent (tasks_db w) →
  supplies_id r = false →
  ids_consistent (tasks_db (snd (dispatch clock r w))).
Proof.
  intros Hc Hr. destruct r; cbn [dispatch]; try exact Hc.
  - (* GET /tasks/{id} *)
    unfold respond. destruct (tasks_db w !! task_id) as [t|] eqn:E.
    + by rewrite (get_task_present clock _ _ _ E).
    + by rewrite (get_task_absent clock _ _ E).
  - (* POST /tasks *)
    unfold respond. rewrite create_task_run. cbn [snd tasks_db].
    intros k t. rewrite lookup_insert. case_decide as Hk.
    + intros [= <-]. subst k. apply Task_dict_lookups.
    + apply Hc.
  - (* PUT /tasks/{id} *)
    unfold respond. destruct (tasks_db w !! task_id) as [t|] eqn:E.
    + rewrite (update_task_present clock _ _ _ _ E). cbn [snd tasks_db].
      intros k t'. rewrite lookup_insert. case_decide as Hk.
      * intros [= <-]. subst k. rewrite overwrite_all_lookup.
        simpl in Hr. apply contains_false in Hr. rewrite Hr.
        rewrite (Hc _ _ E). reflexivity.
      * apply Hc.
    + by rewrite (update_task_absent clock _ _ _ E).
  - (* DELETE /tasks/{id} *)
    unfold respond. destruct (tasks_db w !! task_id) as [t|] eqn:E.
    + rewrite (delete_task_present clock _ _ _ E). cbn [snd tasks_db].
      intros k t'. rewrite lookup_delete_Some. intros [_ Hk].
      by apply Hc.
    + by rewrite (delete_task_absent clock _ _ E).
  - (* GET /user-stories/{id} *)
    unfold respond, get_user_story, mbind, M_bind, bind,
      get_user_stories_db, contains, getitem.
    by destruct (user_stories_db w !! story_id).
Qed.

(** ** The envelope *)




(** ** The batch update of the gRPC demo *)

Section BatchFacts.

Import Grpc.

Variable rng : Type.
Variable random : rng → float * rng.

(** The loop invariant: each request adds one to exactly one of the two
    counters, and a failing one appends its message. *)
Lemma foldl_batch_step (requests : list TaskUpdateRequest) :
  ∀ st : batch_state rng,
    let st' := foldl (batch_step rng random) st requests in
    let failing := failed_items rng random (gen (acc_self rng st)) requests in
    acc_successful rng st' + acc_failed rng st' =
      acc_successful rng st + acc_failed rng st + length requests ∧
    acc_failed rng st' = acc_failed rng st + length failing ∧
    acc_errors rng st' =
      (acc_errors rng st ++ map failure_message failing)%list.
Proof.
  induction requests as [|request rest IH]; intros st; cbv zeta.
  - simpl. rewrite app_nil_r. repeat split; lia.
  - cbn [foldl failed_items length].
    destruct (IH (batch_step rng random st request)) as (Hsum & Hfail & Herr).
    rewrite Hsum, Hfail, Herr. clear IH Hsum Hfail Herr.
    unfold batch_step.
    destruct (random (gen (acc_self rng st))) as [x g].
    destruct (PrimFloat.ltb x 0.2); cbn.
    + rewrite <- app_assoc. repeat split; lia.
    + repeat split; lia.
Qed.

(** C8: for every finite stream of requests and every behaviour of the
    random generator, the counts of [BatchUpdateTasks] add up to the
    number of requests, and [error_messages] holds one message per failed
    request, in order. *)
Theorem batch_counts_add_up (self : servicer rng)
    (request_iterator : list TaskUpdateRequest) :
  let response := fst (BatchUpdateTasks rng random self request_iterator) in
  let failing := failed_items rng random (gen self) request_iterator in
  successful_updates response + failed_updates response =
    length request_iterator ∧
  length (error_messages response) = failed_updates response ∧
  failed_updates response = length failing ∧
  error_messages response = map failure_message failing.
Proof.
  cbv zeta. unfold BatchUpdateTasks. cbn [fst successful_updates
    failed_updates error_messages].
  destruct (foldl_batch_step request_iterator
              (mk_batch_state rng 0 0 [] self)) as (Hsum & Hfail & Herr).
  cbn in Hsum, Hfail, Herr.
  rewrite Herr, length_map. repeat split; done.
Qed.

End BatchFacts.

Example batch_example :
  fst (Grpc.BatchUpdateTasks _ Grpc.replay
         (Grpc.mk_servicer Grpc.initial_mock_tasks
            [0.1%float; 0.9%float; 0.19%float])
         [Grpc.mk_TaskUpdateRequest "task_001" "completed" "demo_user";
          Grpc.mk_TaskUpdateRequest "task_002" "in_progress" "demo_user";
          Grpc.mk_TaskUpdateRequest "task_003" "completed" "demo_user";
          Grpc.mk_TaskUpdateRequest "task_004" "pending" "demo_user"]) =
  Grpc.mk_BatchResponse 2 2
    ["Failed to update task_001"; "Failed to update task_003"].
Proof. vm_compute. reflexivity. Qed.

(** * Further properties of the REST handlers *)

(** ** Generated identifiers *)

Lemma uint_of_string_zeros (k : nat) (s : string) :
  NilEmpty.uint_of_string (Fmt.zeros k +:+ s) =
    Nat.iter k (fmap Decimal.D0) (NilEmpty.uint_of_string s).
Proof.
  induction k as [|k IH]; [reflexivity|].
  change (NilEmpty.uint_of_string (Fmt.zeros (S k) +:+ s))
    with (uint_of_char "0" (NilEmpty.uint_of_string (Fmt.zeros k +:+ s))).
  rewrite IH, Nat.iter_succ. destruct (Nat.iter k _ _); reflexivity.
Qed.

Lemma of_uint_iter_D0 (k : nat) (o : option Decimal.uint) :
  Nat.of_uint <$> Nat.iter k (fmap Decimal.D0) o = Nat.of_uint <$> o.
Proof.
  induction k as [|k IH]; [reflexivity|].
  rewrite Nat.iter_succ, <- IH.
  destruct (Nat.iter k _ _); reflexivity.
Qed.

Lemma length_append (s1 s2 : string) :
  String.length (s1 +:+ s2) = String.length s1 + String.length s2.
Proof. induction s1 as [|c s1 IH]; simpl; [done | by rewrite IH]. Qed.

Lemma length_zeros (k : nat) : String.length (Fmt.zeros k) = k.
Proof. induction k as [|k IH]; simpl; [done | by rewrite IH]. Qed.

Lemma read_zfill (width n : nat) :
  read_decimal (Fmt.zfill width n) = Some n.
Proof.
  unfold read_decimal, Fmt.zfill, Fmt.decimal.
  rewrite uint_of_string_zeros, of_uint_iter_D0, NilEmpty.usu. simpl.
  by rewrite DecimalNat.Unsigned.of_to.
Qed.

Lemma zfill_inj (width n m : nat) :
  Fmt.zfill width n = Fmt.zfill width m → n = m.
Proof.
  intros H. pose proof (read_zfill width n) as Hn.
  rewrite H, read_zfill in Hn. congruence.
Qed.

(** X1: a zero-padded number reads back as the number it was printed
    from, whatever the width, and is never shorter than the width nor
    than the plain numeral: padding never truncates. *)
Theorem zfill_round_trip (width n : nat) :
  read_decimal (Fmt.zfill width n) = Some n ∧
  String.length (Fmt.zfill width n) =
    Nat.max width (String.length (Fmt.decimal n)).
Proof.
  split; [apply read_zfill|].
  unfold Fmt.zfill. rewrite length_append, length_zeros. lia.
Qed.

Lemma append_inj_r (p s1 s2 : string) : p +:+ s1 = p +:+ s2 → s1 = s2.
Proof.
  induction p as [|c p IH]; simpl; [done|]. intros [= H]. by apply IH.
Qed.

Lemma generated_id_inj (prefix : string) (n m : nat) :
  prefix +:+ Fmt.zfill 3 n = prefix +:+ Fmt.zfill 3 m → n = m.
Proof. intros H. by apply (zfill_inj 3), (append_inj_r prefix). Qed.

(** In a dense store the next generated id is free. *)
Lemma dense_next_free (prefix : string) (db : gmap string dict) :
  dense prefix db → db !! (prefix +:+ Fmt.zfill 3 (size db + 1)) = None.
Proof.
  intros Hd. apply eq_None_not_Some. intros Hin.
  apply Hd in Hin as (i & Hi & Heq).
  apply generated_id_inj in Heq. lia.
Qed.

(** Storing a record under the next generated id keeps the store dense. *)
Lemma dense_insert_next (prefix : string) (db : gmap string dict) (d : dict) :
  dense prefix db →
  dense prefix (<[prefix +:+ Fmt.zfill 3 (size db + 1) := d]> db).
Proof.
  intros Hd k.
  rewrite (map_size_insert_None _ _ _ (dense_next_free _ _ Hd)).
  rewrite lookup_insert. case_decide as Hk.
  - subst k. split; [|eauto]. intros _.
    exists (size db + 1). split; [lia | done].
  - rewrite (Hd k). split.
    + intros (i & Hi & ->). exists i. split; [lia | done].
    + intros (i & Hi & ->). exists i. split; [|done].
      destruct (decide (i = size db + 1)) as [->|]; [done | lia].
Qed.

(** Overwriting a stored record keeps the store dense. *)
Lemma dense_insert_present (prefix : string) (db : gmap string dict)
    (k : string) (d : dict) :
  is_Some (db !! k) → dense prefix db → dense prefix (<[k := d]> db).
Proof.
  intros Hin Hd j.
  rewrite (map_size_insert_Some _ _ _ Hin).
  rewrite lookup_insert. case_decide as Hk.
  - subst j. split; [|eauto]. intros _. apply Hd. eauto.
  - apply Hd.
Qed.

Lemma initial_tasks_dense : dense "task_" initial_tasks_db.
Proof.
  assert (Hs : size initial_tasks_db = 2) by reflexivity.
  intros k. rewrite Hs. unfold initial_tasks_db. split.
  - rewrite lookup_insert. case_decide as H1.
    { intros _. exists 1. split; [lia | by subst]. }
    rewrite lookup_insert. case_decide as H2.
    { intros _. exists 2. split; [lia | by subst]. }
    rewrite lookup_empty. by intros [? ?].
  - intros (i & Hi & ->).
    assert (i = 1 ∨ i = 2) as [-> | ->] by lia; eexists; reflexivity.
Qed.

Lemma initial_stories_dense : dense "story_" initial_user_stories_db.
Proof.
  assert (Hs : size initial_user_stories_db = 2) by reflexivity.
  intros k. rewrite Hs. unfold initial_user_stories_db. split.
  - rewrite lookup_insert. case_decide as H1.
    { intros _. exists 1. split; [lia | by subst]. }
    rewrite lookup_insert. case_decide as H2.
    { intros _. exists 2. split; [lia | by subst]. }
    rewrite lookup_empty. by intros [? ?].
  - intros (i & Hi & ->).
    assert (i = 1 ∨ i = 2) as [-> | ->] by lia; eexists; reflexivity.
Qed.

(** ** Which handler writes which store *)

Lemma get_user_story_keeps_world (clock : nat → datetime)
    (story_id : string) (w : world) :
  tasks_db (snd (dispatch clock (GET_user_story story_id) w)) = tasks_db w ∧
  user_stories_db (snd (dispatch clock (GET_user_story story_id) w)) =
    user_stories_db w.
Proof.
  cbn [dispatch].
  unfold respond, get_user_story, mbind, M_bind, bind,
    get_user_stories_db, contains, getitem.
  by destruct (user_stories_db w !! story_id).
Qed.

Lemma get_task_keeps_world (clock : nat → datetime) (task_id : string)
    (w : world) :
  tasks_db (snd (dispatch clock (GET_task task_id) w)) = tasks_db w ∧
  user_stories_db (snd (dispatch clock (GET_task task_id) w)) =
    user_stories_db w.
Proof.
  cbn [dispatch]. unfold respond.
  destruct (tasks_db w !! task_id) as [t|] eqn:E.
  - by rewrite (get_task_present clock _ _ _ E).
  - by rewrite (get_task_absent clock _ _ E).
Qed.

(** X2: only POST, PUT and DELETE on tasks ever change the task store:
    every other request, failing or not, leaves it as it was. *)
Theorem tasks_change_only_by_task_writes (clock : nat → datetime)
    (r : request) (w : world) :
  mutates_tasks r = false →
  tasks_db (snd (dispatch clock r w)) = tasks_db w.
Proof.
  intros Hr. destruct r; try discriminate Hr; try reflexivity.
  - apply get_task_keeps_world.
  - apply get_user_story_keeps_world.
Qed.

Lemma tasks_change_only_by_task_writes_witness :
  mutates_tasks
    (POST_user_stories (mk_UserStory "mine" "tester" "x" "y" [] "low")) =
    false ∧
  tasks_db
    (snd (dispatch example_clock
            (POST_user_stories (mk_UserStory "mine" "tester" "x" "y" [] "low"))
            initial_world)) = tasks_db initial_world.
Proof.
  split; [reflexivity|].
  apply (tasks_change_only_by_task_writes example_clock
           (POST_user_stories (mk_UserStory "mine" "tester" "x" "y" [] "low"))
           initial_world).
  reflexivity.
Defined.

(** X3: only POST /user-stories ever changes the story store: every
    other request, the task writes included, leaves it as it was. *)
Theorem stories_change_only_by_story_create (clock : nat → datetime)
    (r : request) (w : world) :
  mutates_stories r = false →
  user_stories_db (snd (dispatch clock r w)) = user_stories_db w.
Proof.
  intros Hr. destruct r; try discriminate Hr; try reflexivity.
  - apply get_task_keeps_world.
  - cbn [dispatch]. unfold respond.
    destruct (tasks_db w !! task_id) as [t|] eqn:E.
    + by rewrite (update_task_present clock _ _ _ _ E).
    + by rewrite (update_task_absent clock _ _ _ E).
  - cbn [dispatch]. unfold respond.
    destruct (tasks_db w !! task_id) as [t|] eqn:E.
    + by rewrite (delete_task_present clock _ _ _ E).
    + by rewrite (delete_task_absent clock _ _ E).
  - apply get_user_story_keeps_world.
Qed.

Lemma stories_change_only_by_story_create_witness :
  mutates_stories (DELETE_task "task_001") = false ∧
  user_stories_db
    (snd (dispatch example_clock (DELETE_task "task_001") initial_world)) =
    user_stories_db initial_world.
Proof.
  split; [reflexivity|].
  apply (stories_change_only_by_story_create example_clock
           (DELETE_task "task_001") initial_world).
  reflexivity.
Defined.

(** ** Identifiers never collide while nothing is deleted *)

(** X4: in a store whose keys are the generated ids of positions
    [1 .. size], every request other than a DELETE keeps the store of
    that shape and keeps every stored id stored. *)
Theorem no_delete_keeps_dense (clock : nat → datetime) (r : request)
    (w : world) :
  dense "task_" (tasks_db w) →
  is_delete r = false →
  dense "task_" (tasks_db (snd (dispatch clock r w))) ∧
  ∀ k : string,
    is_Some (tasks_db w !! k) →
    is_Some (tasks_db (snd (dispatch clock r w)) !! k).
Proof.
  intros Hd Hr.
  destruct r; try discriminate Hr; try (split; [exact Hd | by auto]).
  - (* GET /tasks/{id} *)
    by rewrite (proj1 (get_task_keeps_world clock task_id w)).
  - (* POST /tasks *)
    cbn [dispatch]. unfold respond. rewrite create_task_run.
    cbn [snd tasks_db]. split; [by apply dense_insert_next|].
    intros k Hk. rewrite lookup_insert. by case_decide.
  - (* PUT /tasks/{id} *)
    cbn [dispatch]. unfold respond.
    destruct (tasks_db w !! task_id) as [t|] eqn:E.
    + rewrite (update_task_present clock _ _ _ _ E). cbn [snd tasks_db].
      split; [by apply dense_insert_present|].
      intros k Hk. rewrite lookup_insert. by case_decide.
    + by rewrite (update_task_absent clock _ _ _ E).
  - (* GET /user-stories/{id} *)
    by rewrite (proj1 (get_user_story_keeps_world clock story_id w)).
Qed.

Lemma no_delete_keeps_dense_witness :
  dense "task_" (tasks_db initial_world) ∧
  is_delete (POST_tasks (mk_CreateTaskRequest "X" "Y" None)) = false ∧
  dense "task_"
    (tasks_db
       (snd (dispatch example_clock
               (POST_tasks (mk_CreateTaskRequest "X" "Y" None))
               initial_world))) ∧
  ∀ k : string,
    is_Some (tasks_db initial_world !! k) →
    is_Some
      (tasks_db
         (snd (dispatch example_clock
                 (POST_tasks (mk_CreateTaskRequest "X" "Y" None))
                 initial_world)) !! k).
Proof.
  split; [exact initial_tasks_dense|]. split; [reflexivity|].
  apply (no_delete_keeps_dense example_clock
           (POST_tasks (mk_CreateTaskRequest "X" "Y" None)) initial_world).
  - exact initial_tasks_dense.
  - reflexivity.
Defined.

(** X5: in such a store POST /tasks never reuses an id: the generated id
    is free, the store grows by one, and every record stored before is
    still stored unchanged. *)
Theorem create_on_dense_store (clock : nat → datetime)
    (task_request : CreateTaskRequest) (w : world) :
  dense "task_" (tasks_db w) →
  let new_id := "task_" +:+ Fmt.zfill 3 (size (tasks_db w) + 1) in
  let w1 := snd (dispatch clock (POST_tasks task_request) w) in
  tasks_db w !! new_id = None ∧
  size (tasks_db w1) = S (size (tasks_db w)) ∧
  ∀ (k : string) (t : dict),
    tasks_db w !! k = Some t → tasks_db w1 !! k = Some t.
Proof.
  intros Hd. cbv zeta. cbn [dispatch]. unfold respond.
  rewrite create_task_run. cbn [snd tasks_db].
  pose proof (dense_next_free _ _ Hd) as Hfree.
  split; [exact Hfree|]. split; [by apply map_size_insert_None|].
  intros k t Hk. rewrite lookup_insert_ne; [done|]. congruence.
Qed.

Lemma create_on_dense_store_witness :
  dense "task_" (tasks_db initial_world) ∧
  tasks_db initial_world !! "task_003" = None ∧
  size (tasks_db
          (snd (dispatch example_clock
                  (POST_tasks (mk_CreateTaskRequest "X" "Y" None))
                  initial_world))) = 3 ∧
  ∀ (k : string) (t : dict),
    tasks_db initial_world !! k = Some t →
    tasks_db
      (snd (dispatch example_clock
              (POST_tasks (mk_CreateTaskRequest "X" "Y" None))
              initial_world)) !! k = Some t.
Proof.
  split; [exact initial_tasks_dense|].
  exact (create_on_dense_store example_clock
           (mk_CreateTaskRequest "X" "Y" None) initial_world
           initial_tasks_dense).
Defined.

(** ** Deleting, then creating *)

Lemma delete_task_run (clock : nat → datetime) (task_id : string)
    (t : dict) (w : world) :
  tasks_db w !! task_id = Some t →
  snd (dispatch clock (DELETE_task task_id) w) =
    mk_world (delete task_id (tasks_db w)) (user_stories_db w)
             (S (ticks w)).
Proof.
  intros H. cbn [dispatch]. unfold respond.
  by rewrite (delete_task_present clock _ _ _ H).
Qed.

Lemma size_delete_present {V} (i : string) (m : gmap string V) :
  is_Some (m !! i) → S (size (delete i m)) = size m.
Proof.
  intros [v H]. rewrite map_size_delete, H.
  assert (Hne : m ≠ ∅) by (intros He; by rewrite He in H).
  apply map_size_non_empty_iff in Hne. lia.
Qed.

(** X6: DELETE /tasks/{id} on a stored task removes that record and no
    other: the store shrinks by one and every other task is as before. *)
Theorem delete_removes_one (clock : nat → datetime) (task_id : string)
    (w : world) :
  is_Some (tasks_db w !! task_id) →
  let w1 := snd (dispatch clock (DELETE_task task_id) w) in
  S (size (tasks_db w1)) = size (tasks_db w) ∧
  ∀ j : string, j ≠ task_id → tasks_db w1 !! j = tasks_db w !! j.
Proof.
  intros [t H]. cbv zeta.
  rewrite (delete_task_run clock _ _ _ H). cbn [tasks_db]. split.
  - apply size_delete_present. eauto.
  - intros j Hj. by apply lookup_delete_ne.
Qed.

Lemma delete_removes_one_witness :
  is_Some (tasks_db initial_world !! "task_001") ∧
  S (size (tasks_db
             (snd (dispatch example_clock (DELETE_task "task_001")
                     initial_world)))) = size (tasks_db initial_world) ∧
  ∀ j : string,
    j ≠ "task_001" →
    tasks_db
      (snd (dispatch example_clock (DELETE_task "task_001") initial_world))
      !! j = tasks_db initial_world !! j.
Proof.
  assert (Hin : is_Some (tasks_db initial_world !! "task_001"))
    by (eexists; reflexivity).
  split; [exact Hin|].
  exact (delete_removes_one example_clock "task_001" initial_world Hin).
Defined.

(** X7: ids are reused after a delete.  In a store whose keys are the
    generated ids of positions [1 .. n], deleting any task but the last
    and then creating one generates the id of position [n], which is
    still stored: the create replaces that record, and the store ends one
    task short. *)
Theorem delete_then_create_overwrites_last (clock : nat → datetime)
    (task_id : string) (task_request : CreateTaskRequest) (w : world) :
  dense "task_" (tasks_db w) →
  is_Some (tasks_db w !! task_id) →
  task_id ≠ "task_" +:+ Fmt.zfill 3 (size (tasks_db w)) →
  let last_id := "task_" +:+ Fmt.zfill 3 (size (tasks_db w)) in
  let w1 := snd (dispatch clock (DELETE_task task_id) w) in
  let w2 := snd (dispatch clock (POST_tasks task_request) w1) in
  is_Some (tasks_db w !! last_id) ∧
  created_id (create_task clock task_request w1) = Some last_id ∧
  S (size (tasks_db w2)) = size (tasks_db w) ∧
  ∃ d : dict,
    tasks_db w2 !! last_id = Some d ∧
    d !! "title" = Some (VStr (req_title task_request)) ∧
    d !! "status" = Some (VStr "pending").
Proof.
  intros Hd [t Ht] Hne. cbv zeta.
  pose proof (size_delete_present task_id (tasks_db w) (ex_intro _ t Ht))
    as Hsize.
  rewrite (delete_task_run clock _ _ _ Ht). cbn [tasks_db].
  set (n := size (tasks_db w)) in *.
  assert (Hn : 1 ≤ n).
  { destruct (proj1 (Hd task_id) (ex_intro _ t Ht)) as (i & Hi & _). lia. }
  assert (Hlast : is_Some (tasks_db w !! ("task_" +:+ Fmt.zfill 3 n))).
  { apply Hd. exists n. split; [lia | done]. }
  assert (Hnext : size (delete task_id (tasks_db w)) + 1 = n) by lia.
  split; [exact Hlast|].
  cbn [dispatch]. unfold respond, created_id.
  rewrite create_task_run. cbn [fst snd tasks_db data new_ApiResponse].
  rewrite Hnext. split; [reflexivity|]. split.
  - rewrite map_size_insert_Some; [lia|].
    rewrite lookup_delete_ne by done. exact Hlast.
  - eexists. split; [apply lookup_insert_eq|].
    split; apply Task_dict_lookups.
Qed.

Lemma delete_then_create_overwrites_last_witness :
  dense "task_" (tasks_db initial_world) ∧
  is_Some (tasks_db initial_world !! "task_001") ∧
  "task_001" ≠ "task_" +:+ Fmt.zfill 3 (size (tasks_db initial_world)) ∧
  let task_request := mk_CreateTaskRequest "X" "Y" None in
  let w1 :=
    snd (dispatch example_clock (DELETE_task "task_001") initial_world) in
  let w2 := snd (dispatch example_clock (POST_tasks task_request) w1) in
  is_Some (tasks_db initial_world !! "task_002") ∧
  created_id (create_task example_clock task_request w1) =
    Some "task_002" ∧
  S (size (tasks_db w2)) = size (tasks_db initial_world) ∧
  ∃ d : dict,
    tasks_db w2 !! "task_002" = Some d ∧
    d !! "title" = Some (VStr "X") ∧
    d !! "status" = Some (VStr "pending").
Proof.
  assert (Hin : is_Some (tasks_db initial_world !! "task_001"))
    by (eexists; reflexivity).
  assert (Hne : "task_001" ≠
                "task_" +:+ Fmt.zfill 3 (size (tasks_db initial_world)))
    by (vm_compute; discriminate).
  split; [exact initial_tasks_dense|]. split; [exact Hin|].
  split; [exact Hne|].
  exact (delete_then_create_overwrites_last example_clock "task_001"
           (mk_CreateTaskRequest "X" "Y" None) initial_world
           initial_tasks_dense Hin Hne).
Defined.

(** ** Updating *)

Lemma update_task_run (clock : nat → datetime) (task_id : string)
    (task_update t : dict) (w : world) :
  tasks_db w !! task_id = Some t →
  dispatch clock (PUT_task task_id task_update) w =
    (Enveloped 200
       (new_ApiResponse true (foldl overwrite t (map_to_list task_update))
          "Task updated successfully" (isoformat (clock (ticks w)))),
     mk_world
       (<[task_id := foldl overwrite t (map_to_list task_update)]>
          (tasks_db w))
       (user_stories_db w) (S (ticks w))).
Proof.
  intros H. cbn [dispatch]. unfold respond.
  by rewrite (update_task_present clock _ _ _ _ H).
Qed.

Lemma update_absent_keeps_store (clock : nat → datetime) (task_id : string)
    (task_update : dict) (w : world) :
  tasks_db w !! task_id = None →
  tasks_db (snd (dispatch clock (PUT_task task_id task_update) w)) =
    tasks_db w.
Proof.
  intros H. cbn [dispatch].
  rewrite (respond_ext _ _ _ _
             (update_task_absent clock _ task_update _ H)).
  apply task_not_found_keeps_store.
Qed.

Lemma overwrite_all_idempotent (t task_update : dict) :
  foldl overwrite (foldl overwrite t (map_to_list task_update))
    (map_to_list task_update) =
  foldl overwrite t (map_to_list task_update).
Proof.
  apply map_eq. intros k. rewrite !overwrite_all_lookup.
  destruct (t !! k) as [old|]; [|done].
  by destruct (task_update !! k).
Qed.

Lemma overwrite_all_disjoint (t task_update : dict) :
  (∀ k : string, is_Some (task_update !! k) → t !! k = None) →
  foldl overwrite t (map_to_list task_update) = t.
Proof.
  intros Hdis. apply map_eq. intros k. rewrite overwrite_all_lookup.
  destruct (t !! k) as [old|] eqn:Hk; [|done].
  destruct (task_update !! k) as [v|] eqn:Hv; [|done].
  rewrite (Hdis k) in Hk by eauto. discriminate.
Qed.

(** X8: PUT /tasks/{id} is idempotent on the task store: sending the same
    payload to the same id twice leaves the store as one send does,
    whether or not the id is stored. *)
Theorem update_twice_is_update_once (clock : nat → datetime)
    (task_id : string) (task_update : dict) (w : world) :
  let w1 := snd (dispatch clock (PUT_task task_id task_update) w) in
  let w2 := snd (dispatch clock (PUT_task task_id task_update) w1) in
  tasks_db w2 = tasks_db w1.
Proof.
  cbv zeta. destruct (tasks_db w !! task_id) as [t|] eqn:E.
  - rewrite (update_task_run clock _ _ _ _ E). cbn [snd].
    rewrite (update_task_run clock _ task_update
               (foldl overwrite t (map_to_list task_update)))
      by apply lookup_insert_eq.
    cbn [snd tasks_db].
    by rewrite overwrite_all_idempotent, insert_insert_eq.
  - rewrite !(update_absent_keeps_store clock); [done | done |].
    by rewrite (update_absent_keeps_store clock).
Qed.

(** X10: the record a successful PUT returns is the record the GET of
    the same id returns next. *)
Theorem update_then_get (clock : nat → datetime) (task_id : string)
    (task_update : dict) (w : world) :
  is_Some (tasks_db w !! task_id) →
  ∃ (body body' : ApiResponse dict) (t' : dict) (w1 w2 : world),
    dispatch clock (PUT_task task_id task_update) w =
      (Enveloped 200 body, w1) ∧
    dispatch clock (GET_task task_id) w1 = (Enveloped 200 body', w2) ∧
    data body = Some t' ∧
    data body' = Some t' ∧
    tasks_db w2 = tasks_db w1.
Proof.
  intros [t H]. rewrite (update_task_run clock _ _ _ _ H).
  do 5 eexists. split; [reflexivity|].
  cbn [dispatch]. unfold respond.
  rewrite (get_task_present clock _
             (foldl overwrite t (map_to_list task_update)))
    by apply lookup_insert_eq.
  split; [reflexivity|]. split; [reflexivity|]. split; reflexivity.
Qed.

Lemma update_then_get_witness :
  is_Some (tasks_db initial_world !! "task_001") ∧
  ∃ (body body' : ApiResponse dict) (t' : dict) (w1 w2 : world),
    dispatch example_clock
      (PUT_task "task_001" (<["status" := VStr "completed"]> ∅))
      initial_world = (Enveloped 200 body, w1) ∧
    dispatch example_clock (GET_task "task_001") w1 =
      (Enveloped 200 body', w2) ∧
    data body = Some t' ∧
    data body' = Some t' ∧
    tasks_db w2 = tasks_db w1.
Proof.
  assert (Hin : is_Some (tasks_db initial_world !! "task_001"))
    by (eexists; reflexivity).
  split; [exact Hin|].
  exact (update_then_get example_clock "task_001"
           (<["status" := VStr "completed"]> ∅) initial_world Hin).
Defined.

(** ** Listing *)

Lemma elem_of_values {V} (m : gmap string V) (v : V) :
  v ∈ map snd (map_to_list m) ↔ ∃ k : string, m !! k = Some v.
Proof.
  rewrite list_elem_of_fmap. split.
  - intros ([k v'] & -> & Hin). exists k. by apply elem_of_map_to_list.
  - intros [k Hk]. exists (k, v). split; [done|].
    by apply elem_of_map_to_list.
Qed.

(** ** User stories *)

Lemma get_user_story_absent (clock : nat → datetime) (story_id : string)
    (w : world) :
  user_stories_db w !! story_id = None →
  dispatch clock (GET_user_story story_id) w =
    (ErrorEnvelope 404
       (error_detail "STORY_NOT_FOUND"
          ("User story with ID " +:+ story_id +:+ " not found")
          (isoformat (clock (ticks w)))),
     mk_world (tasks_db w) (user_stories_db w) (S (ticks w))).
Proof.
  intros H. cbn [dispatch].
  unfold respond, get_user_story, mbind, M_bind, bind,
    get_user_stories_db, contains.
  by rewrite H.
Qed.

Lemma get_user_story_present (clock : nat → datetime) (story_id : string)
    (d : dict) (w : world) :
  user_stories_db w !! story_id = Some d →
  dispatch clock (GET_user_story story_id) w =
    (Enveloped 200
       (new_ApiResponse true d "User story retrieved successfully"
          (isoformat (clock (ticks w)))),
     mk_world (tasks_db w) (user_stories_db w) (S (ticks w))).
Proof.
  intros H. cbn [dispatch].
  unfold respond, get_user_story, mbind, M_bind, bind,
    get_user_stories_db, contains, getitem.
  by rewrite H.
Qed.

(** X12: GET /user-stories/{id} for an id absent from the story store
    answers 404 with [success] false and error [STORY_NOT_FOUND], and
    changes neither store. *)
Theorem absent_story_is_not_found (clock : nat → datetime)
    (story_id : string) (w : world) :
  user_stories_db w !! story_id = None →
  let res := dispatch clock (GET_user_story story_id) w in
  is_story_not_found (fst res) ∧
  user_stories_db (snd res) = user_stories_db w ∧
  tasks_db (snd res) = tasks_db w.
Proof.
  intros H. cbv zeta. rewrite (get_user_story_absent clock _ _ H).
  cbn [fst snd is_story_not_found]. split; [|done].
  split; [done|]. split; [apply error_detail_success|].
  apply error_detail_error.
Qed.

Lemma absent_story_is_not_found_witness :
  user_stories_db initial_world !! "story_404" = None ∧
  let res := dispatch example_clock (GET_user_story "story_404")
               initial_world in
  is_story_not_found (fst res) ∧
  user_stories_db (snd res) = user_stories_db initial_world ∧
  tasks_db (snd res) = tasks_db initial_world.
Proof.
  split; [reflexivity|].
  apply (absent_story_is_not_found example_clock "story_404"
           initial_world).
  reflexivity.
Defined.

Lemma UserStory_dict_lookups (s : UserStory) :
  UserStory_dict s !! "as_a" = Some (VStr (as_a s)) ∧
  UserStory_dict s !! "i_want" = Some (VStr (i_want s)) ∧
  UserStory_dict s !! "so_that" = Some (VStr (so_that s)) ∧
  UserStory_dict s !! "acceptance_criteria" =
    Some (VList (map VStr (acceptance_criteria s))) ∧
  UserStory_dict s !! "priority" = Some (VStr (priority s)).
Proof.
  unfold UserStory_dict.
  repeat split;
    repeat (rewrite lookup_insert_ne by done); apply lookup_insert_eq.
Qed.

(** X13: POST /user-stories followed by GET /user-stories/{new_id}
    returns the submitted role, wish, benefit, acceptance criteria (in
    order) and priority, under the generated id. *)
Theorem create_story_then_get (clock : nat → datetime) (story : UserStory)
    (w : world) :
  ∃ (body : ApiResponse UserStory) (s : UserStory) (w1 : world),
    dispatch clock (POST_user_stories story) w = (Enveloped 201 body, w1) ∧
    success body = true ∧
    data body = Some s ∧
    ∃ (body' : ApiResponse dict) (d : dict) (w2 : world),
      dispatch clock (GET_user_story (story_id_ s)) w1 =
        (Enveloped 200 body', w2) ∧
      success body' = true ∧
      data body' = Some d ∧
      d !! "id" = Some (VStr (story_id_ s)) ∧
      d !! "as_a" = Some (VStr (as_a story)) ∧
      d !! "i_want" = Some (VStr (i_want story)) ∧
      d !! "so_that" = Some (VStr (so_that story)) ∧
      d !! "acceptance_criteria" =
        Some (VList (map VStr (acceptance_criteria story))) ∧
      d !! "priority" = Some (VStr (priority story)).
Proof.
  set (story_id := "story_" +:+ Fmt.zfill 3 (size (user_stories_db w) + 1)).
  exists (new_ApiResponse true (set_story_id story story_id)
            "User story created successfully"
            (isoformat (clock (ticks w)))),
    (set_story_id story story_id),
    (mk_world (tasks_db w)
       (<[story_id := UserStory_dict (set_story_id story story_id)]>
          (user_stories_db w)) (S (ticks w))).
  split; [reflexivity|]. split; [reflexivity|].
  split; [reflexivity|]. cbn [story_id_ set_story_id].
  rewrite (get_user_story_present clock _
             (UserStory_dict (set_story_id story story_id)))
    by apply lookup_insert_eq.
  do 3 eexists. split; [reflexivity|]. split; [reflexivity|].
  split; [reflexivity|]. split; [apply UserStory_dict_id|].
  apply (UserStory_dict_lookups (set_story_id story story_id)).
Qed.

(** X14: stories are append-only.  In a story store whose keys are the
    generated ids of positions [1 .. size], every request keeps the
    store of that shape and keeps every stored story as it is: no
    request removes, replaces or rewrites a story. *)
Theorem stories_are_append_only (clock : nat → datetime) (r : request)
    (w : world) :
  dense "story_" (user_stories_db w) →
  dense "story_" (user_stories_db (snd (dispatch clock r w))) ∧
  ∀ (k : string) (d : dict),
    user_stories_db w !! k = Some d →
    user_stories_db (snd (dispatch clock r w)) !! k = Some d.
Proof.
  intros Hd. destruct r; try (split; [exact Hd | by auto]).
  - by rewrite (proj2 (get_task_keeps_world clock task_id w)).
  - (* PUT /tasks/{id} *)
    cbn [dispatch]. unfold respond.
    destruct (tasks_db w !! task_id) as [t|] eqn:E.
    + by rewrite (update_task_present clock _ _ _ _ E).
    + by rewrite (update_task_absent clock _ _ _ E).
  - (* DELETE /tasks/{id} *)
    cbn [dispatch]. unfold respond.
    destruct (tasks_db w !! task_id) as [t|] eqn:E.
    + by rewrite (delete_task_present clock _ _ _ E).
    + by rewrite (delete_task_absent clock _ _ E).
  - by rewrite (proj2 (get_user_story_keeps_world clock story_id w)).
  - (* POST /user-stories *)
    cbn [dispatch]. unfold respond. rewrite create_user_story_run.
    cbn [snd user_stories_db]. split; [by apply dense_insert_next|].
    intros k d Hk. rewrite lookup_insert_ne; [done|].
    pose proof (dense_next_free _ _ Hd). congruence.
Qed.

Lemma stories_are_append_only_witness :
  let r := POST_user_stories (mk_UserStory "mine" "tester" "x" "y" [] "low") in
  dense "story_" (user_stories_db initial_world) ∧
  dense "story_"
    (user_stories_db (snd (dispatch example_clock r initial_world))) ∧
  ∀ (k : string) (d : dict),
    user_stories_db initial_world !! k = Some d →
    user_stories_db (snd (dispatch example_clock r initial_world)) !! k =
      Some d.
Proof.
  cbv zeta. split; [exact initial_stories_dense|].
  exact (stories_are_append_only example_clock
           (POST_user_stories (mk_UserStory "mine" "tester" "x" "y" [] "low"))
           initial_world initial_stories_dense).
Defined.

(** ** Status codes and the success flag *)

Lemma new_ApiResponse_agrees {T} (status_code : nat) (x : T)
    (msg ts : string) :
  status_agrees status_code
    (Enveloped status_code (new_ApiResponse true x msg ts)).
Proof. repeat split; eauto. Qed.

Lemma error_detail_agrees (status_code : nat) (error msg ts : string) :
  status_code = 400 ∨ status_code = 404 ∨ status_code = 500 →
  error ≠ "" →
  status_agrees 200 (ErrorEnvelope status_code (error_detail error msg ts)) ∧
  status_agrees 201 (ErrorEnvelope status_code (error_detail error msg ts)).
Proof.
  intros Hs He.
  assert (Hnodata : error_detail error msg ts !! "data" = None).
  { unfold error_detail.
    do 5 (rewrite lookup_insert_ne by done). apply lookup_empty. }
  split; (split; [exact Hs|]); (split; [apply error_detail_success|]);
    (split; [|exact Hnodata]); exists error;
    (split; [apply error_detail_error | exact He]).
Qed.

(** What the handlers themselves produce, seen through status codes: a
    returned envelope has [success] true, data and a message under the
    decorator's status; a raised one has [success] false, a non-empty
    error code and no data under 400, 404 or 500. *)
Lemma handlers_status_agrees (clock : nat → datetime) (r : request)
    (w : world) :
  is_direct r = false →
  status_agrees (success_status r) (fst (dispatch clock r w)).
Proof.
  intros Hr.
  destruct r; try discriminate Hr; cbn [success_status];
    try apply new_ApiResponse_agrees;
    try (apply error_detail_agrees; [auto | discriminate]).
  - (* GET /tasks/{id} *)
    cbn [dispatch]. unfold respond.
    destruct (tasks_db w !! task_id) as [t|] eqn:E.
    + rewrite (get_task_present clock _ _ _ E).
      apply new_ApiResponse_agrees.
    + rewrite (get_task_absent clock _ _ E), task_not_found_run.
      apply error_detail_agrees; [auto | discriminate].
  - (* PUT /tasks/{id} *)
    destruct (tasks_db w !! task_id) as [t|] eqn:E.
    + rewrite (update_task_run clock _ _ _ _ E).
      apply new_ApiResponse_agrees.
    + cbn [dispatch]. unfold respond.
      rewrite (update_task_absent clock _ _ _ E), task_not_found_run.
      apply error_detail_agrees; [auto | discriminate].
  - (* DELETE /tasks/{id} *)
    cbn [dispatch]. unfold respond.
    destruct (tasks_db w !! task_id) as [t|] eqn:E.
    + rewrite (delete_task_present clock _ _ _ E).
      apply new_ApiResponse_agrees.
    + rewrite (delete_task_absent clock _ _ E), task_not_found_run.
      apply error_detail_agrees; [auto | discriminate].
  - (* GET /user-stories/{id} *)
    destruct (user_stories_db w !! story_id) as [d|] eqn:E.
    + rewrite (get_user_story_present clock _ _ _ E).
      apply new_ApiResponse_agrees.
    + rewrite (get_user_story_absent clock _ _ E).
      apply error_detail_agrees; [auto | discriminate].
Qed.

(** * Further properties of the gRPC servicer *)

Section BatchEffects.

Import Grpc.

Variable rng : Type.
Variable random : rng → float * rng.

(** What one request does to the table and the generator. *)
Lemma batch_step_self (st : batch_state rng) (request : TaskUpdateRequest) :
  let self := acc_self rng st in
  let x := fst (random (gen self)) in
  acc_self rng (batch_step rng random st request) =
    mk_servicer
      (if PrimFloat.ltb x 0.2 then mock_tasks self
       else match mock_tasks self !! task_id request with
            | Some t =>
                <[task_id request := <["status" := new_status request]> t]>
                  (mock_tasks self)
            | None => mock_tasks self
            end)
      (snd (random (gen self))).
Proof.
  cbv zeta. unfold batch_step.
  destruct (random (gen (acc_self rng st))) as [x g]. simpl.
  by destruct (PrimFloat.ltb x 0.2).
Qed.

Lemma foldl_batch_step_table (requests : list TaskUpdateRequest)
    (k : string) :
  ∀ st : batch_state rng,
    mock_tasks (acc_self rng (foldl (batch_step rng random) st requests))
      !! k =
    final_record k
      (succeeded_items random (gen (acc_self rng st)) requests)
      <$> mock_tasks (acc_self rng st) !! k.
Proof.
  induction requests as [|request rest IH]; intros st.
  - cbn [foldl succeeded_items]. unfold final_record. simpl.
    by destruct (mock_tasks (acc_self rng st) !! k).
  - cbn [foldl succeeded_items]. rewrite IH, batch_step_self. cbv zeta.
    cbn [gen mock_tasks].
    destruct (random (gen (acc_self rng st))) as [x g]. cbn [fst snd].
    destruct (PrimFloat.ltb x 0.2); [done|].
    unfold final_record. rewrite filter_cons.
    destruct (mock_tasks (acc_self rng st) !! task_id request)
      as [t|] eqn:Ht.
    + destruct (decide (task_id request = k)) as [Heq|Hne].
      * subst k. rewrite last_cons, lookup_insert_eq, Ht. simpl.
        destruct (last _) as [r|]; simpl; [|done].
        by rewrite insert_insert_eq.
      * by rewrite lookup_insert_ne.
    + destruct (decide (task_id request = k)) as [Heq|Hne]; [|done].
      subst k. by rewrite Ht.
Qed.

(** X16: what a batch does to the mock table.  A task not in the table
    stays out of it; a task in the table keeps every other field and
    takes as its status the [new_status] of the last successful request
    addressed to it, if there is one.  Failed requests and requests for
    unknown ids change nothing. *)
Theorem batch_sets_last_successful_status (self : servicer rng)
    (request_iterator : list TaskUpdateRequest) (k : string) :
  let self' := snd (BatchUpdateTasks rng random self request_iterator) in
  let succeeded := succeeded_items random (gen self) request_iterator in
  mock_tasks self' !! k = final_record k succeeded <$> mock_tasks self !! k ∧
  ∀ (t t' : gmap string string) (field : string),
    mock_tasks self !! k = Some t →
    mock_tasks self' !! k = Some t' →
    field ≠ "status" →
    t' !! field = t !! field.
Proof.
  cbv zeta. unfold BatchUpdateTasks. cbn [snd].
  rewrite foldl_batch_step_table. cbn [acc_self]. split; [done|].
  intros t t' field Ht. rewrite Ht. cbn [fmap option_fmap option_map].
  intros [= <-] Hfield. unfold final_record.
  destruct (last _) as [r|]; [|done]. by rewrite lookup_insert_ne.
Qed.

End BatchEffects.

Section BatchComposition.

Import Grpc.

Variable rng : Type.
Variable random : rng → float * rng.

(** A batch started from counters already at some value adds to them
    what it would have counted from zero. *)
Lemma foldl_batch_step_shift (requests : list TaskUpdateRequest) :
  ∀ st : batch_state rng,
    let st0 :=
      foldl (batch_step rng random)
        (mk_batch_state rng 0 0 [] (acc_self rng st)) requests in
    foldl (batch_step rng random) st requests =
      mk_batch_state rng
        (acc_successful rng st + acc_successful rng st0)
        (acc_failed rng st + acc_failed rng st0)
        (acc_errors rng st ++ acc_errors rng st0)%list
        (acc_self rng st0).
Proof.
  induction requests as [|request rest IH]; intros [a b e self]; cbv zeta.
  - cbn. rewrite app_nil_r. f_equal; lia.
  - cbn [foldl acc_self].
    rewrite (IH (batch_step rng random (mk_batch_state rng a b e self)
                   request)).
    rewrite (IH (batch_step rng random (mk_batch_state rng 0 0 [] self)
                   request)).
    cbv zeta. unfold batch_step. cbn [acc_self acc_successful acc_failed
      acc_errors].
    destruct (random (gen self)) as [x g].
    destruct (PrimFloat.ltb x 0.2);
      cbn [acc_self acc_successful acc_failed acc_errors].
    + rewrite <- !app_assoc. f_equal; lia.
    + f_equal; lia.
Qed.

(** X17: a batch can be cut anywhere.  Processing a stream in one call
    gives the counts and messages of processing a first part and then,
    on the servicer that part leaves, the rest: counts add up, messages
    concatenate, and the servicer ends in the same state. *)
Theorem batch_of_concatenation (self : servicer rng)
    (first rest : list TaskUpdateRequest) :
  let whole := BatchUpdateTasks rng random self (first ++ rest) in
  let part1 := BatchUpdateTasks rng random self first in
  let part2 := BatchUpdateTasks rng random (snd part1) rest in
  successful_updates (fst whole) =
    successful_updates (fst part1) + successful_updates (fst part2) ∧
  failed_updates (fst whole) =
    failed_updates (fst part1) + failed_updates (fst part2) ∧
  error_messages (fst whole) =
    (error_messages (fst part1) ++ error_messages (fst part2))%list ∧
  snd whole = snd part2.
Proof.
  cbv zeta. unfold BatchUpdateTasks.
  cbn [fst snd successful_updates failed_updates error_messages].
  rewrite foldl_app.
  rewrite (foldl_batch_step_shift rest
             (foldl (batch_step rng random)
                (mk_batch_state rng 0 0 [] self) first)).
  cbv zeta. cbn [acc_self acc_successful acc_failed acc_errors].
  repeat split.
Qed.

End BatchComposition.

Section AnalyticsFacts.

Import Grpc.

Variable rng : Type.
Variable random : rng → float * rng.
Variable randint : rng → Z → Z → Z * rng.
Variable choice : rng → list string → string * rng.
Variable time : nat → Z.
Variable is_active : nat → bool.

Lemma metric_step_titled (acc : list TaskMetric) (g : rng)
    (item : string * gmap string string) (title : string) :
  item.2 !! "title" = Some title →
  ∃ (m : TaskMetric) (g' : rng),
    metric_step rng randint choice (Some acc, g) item =
      (Some (acc ++ [m])%list, g') ∧
    metric_task_id m = item.1 ∧ metric_title m = title.
Proof.
  intros H. unfold metric_step. rewrite H.
  destruct (randint g 1 10) as [days g1].
  destruct (choice g1 _) as [cx g2].
  by do 2 eexists.
Qed.

Lemma foldl_metric_step (l : list (string * gmap string string)) :
  Forall (λ item, is_Some (item.2 !! "title")) l →
  ∀ (acc : list TaskMetric) (g : rng),
    ∃ (ms : list TaskMetric) (g' : rng),
      foldl (metric_step rng randint choice) (Some acc, g) l =
        (Some (acc ++ ms)%list, g') ∧
      Forall2 (λ item m,
                 metric_task_id m = item.1 ∧
                 item.2 !! "title" = Some (metric_title m)) l ms.
Proof.
  induction 1 as [|item l [title Ht] _ IH]; intros acc g.
  - exists [], g. split; [by rewrite app_nil_r | constructor].
  - cbn [foldl].
    destruct (metric_step_titled acc g item title Ht)
      as (m & g1 & -> & Hid & Htitle).
    destruct (IH (acc ++ [m])%list g1) as (ms & g' & -> & HF).
    exists (m :: ms), g'. rewrite <- app_assoc. split; [done|].
    constructor; [|done]. split; [done | by rewrite Htitle].
Qed.

Lemma titled_items (tasks : gmap string (gmap string string)) :
  titled tasks →
  Forall (λ item, is_Some (item.2 !! "title")) (map_to_list tasks).
Proof.
  intros Ht. apply Forall_forall. intros [k t] Hin.
  apply elem_of_map_to_list in Hin. by apply (Ht k).
Qed.

Lemma initial_mock_tasks_titled : titled initial_mock_tasks.
Proof.
  intros k t. unfold initial_mock_tasks.
  do 4 (rewrite lookup_insert; case_decide;
        [intros [= <-]; eexists; reflexivity|]).
  by rewrite lookup_empty.
Qed.

(** X18: when every task of the mock table has a title,
    [GetTeamPerformance] answers without a [KeyError], echoes the
    requested team id, leaves the table as it is, and reports exactly
    one metric per task of the table, carrying that task's id and
    title. *)
Theorem team_performance_lists_every_task (self : servicer rng)
    (request : TeamRequest) :
  titled (mock_tasks self) →
  ∃ (perf : TeamPerformance) (self' : servicer rng),
    GetTeamPerformance rng randint choice self request =
      (Some perf, self') ∧
    perf_team_id perf = team_id request ∧
    mock_tasks self' = mock_tasks self ∧
    length (task_metrics perf) = size (mock_tasks self) ∧
    (∀ m : TaskMetric,
       m ∈ task_metrics perf →
       ∃ t : gmap string string,
         mock_tasks self !! metric_task_id m = Some t ∧
         t !! "title" = Some (metric_title m)) ∧
    (∀ k : string,
       is_Some (mock_tasks self !! k) →
       ∃ m : TaskMetric, m ∈ task_metrics perf ∧ metric_task_id m = k).
Proof.
  intros Ht. unfold GetTeamPerformance.
  destruct (foldl_metric_step _ (titled_items _ Ht) [] (gen self))
    as (ms & g' & -> & HF).
  do 2 eexists. split; [reflexivity|].
  cbn [app perf_team_id task_metrics mock_tasks].
  split; [done|]. split; [done|]. split; [|split].
  - rewrite <- (Forall2_length _ _ _ HF). apply length_map_to_list.
  - intros m Hm. apply list_elem_of_lookup_1 in Hm as [i Hi].
    destruct (Forall2_lookup_r _ _ _ _ _ HF Hi)
      as ([k t] & Hl & Hid & Htitle).
    exists t. simpl in Hid, Htitle. rewrite Hid. split; [|done].
    apply elem_of_map_to_list. by eapply list_elem_of_lookup_2.
  - intros k [t Hk]. apply elem_of_map_to_list in Hk.
    apply list_elem_of_lookup_1 in Hk as [i Hi].
    destruct (Forall2_lookup_l _ _ _ _ _ HF Hi) as (m & Hm & Hid & _).
    exists m. split; [by eapply list_elem_of_lookup_2 | done].
Qed.

(** X19: a batch never breaks [GetTeamPerformance].  Whatever requests a
    batch processes, a table in which every task has a title is left in
    that state, so the performance report that follows succeeds and
    still has one metric per task of the original table. *)
Theorem team_performance_after_batch (self : servicer rng)
    (request_iterator : list TaskUpdateRequest) (request : TeamRequest) :
  titled (mock_tasks self) →
  let self1 := snd (BatchUpdateTasks rng random self request_iterator) in
  titled (mock_tasks self1) ∧
  ∃ perf : TeamPerformance,
    fst (GetTeamPerformance rng randint choice self1 request) = Some perf ∧
    length (task_metrics perf) = size (mock_tasks self).
Proof.
  intros Ht. cbv zeta.
  set (self1 := snd (BatchUpdateTasks rng random self request_iterator)).
  assert (Hlook : ∀ k : string,
            mock_tasks self1 !! k =
              final_record k
                (succeeded_items random (gen self) request_iterator)
                <$> mock_tasks self !! k).
  { intros k. unfold self1, BatchUpdateTasks. cbn [snd].
    by rewrite foldl_batch_step_table. }
  assert (Ht1 : titled (mock_tasks self1)).
  { intros k t1. rewrite Hlook.
    destruct (mock_tasks self !! k) as [t|] eqn:E; [|done].
    cbn [fmap option_fmap option_map]. intros [= <-].
    unfold final_record.
    destruct (last _); [rewrite lookup_insert_ne by done|];
      by apply (Ht k). }
  split; [exact Ht1|]. unfold GetTeamPerformance.
  destruct (foldl_metric_step _ (titled_items _ Ht1) [] (gen self1))
    as (ms & g' & -> & HF).
  eexists. split; [reflexivity|]. cbn [app task_metrics].
  rewrite <- (Forall2_length _ _ _ HF), length_map_to_list.
  assert (Hdom : (dom (mock_tasks self1) : gset string) =
                 dom (mock_tasks self)).
  { apply set_eq. intros k. rewrite !elem_of_dom, Hlook.
    by rewrite fmap_is_Some. }
  by rewrite <- (size_dom (mock_tasks self1)), Hdom, size_dom.
Qed.

End AnalyticsFacts.

Lemma team_performance_lists_every_task_witness :
  let randint := λ (g : unit) (a b : Z), (a, g) in
  let choice := λ (g : unit) (l : list string), (default "" (head l), g) in
  let self := Grpc.mk_servicer Grpc.initial_mock_tasks tt in
  let request := Grpc.mk_TeamRequest "eng" 30 in
  Grpc.titled (Grpc.mock_tasks self) ∧
  ∃ (perf : Grpc.TeamPerformance) (self' : Grpc.servicer unit),
    Grpc.GetTeamPerformance unit randint choice self request =
      (Some perf, self') ∧
    Grpc.perf_team_id perf = Grpc.team_id request ∧
    Grpc.mock_tasks self' = Grpc.mock_tasks self ∧
    length (Grpc.task_metrics perf) = size (Grpc.mock_tasks self) ∧
    (∀ m : Grpc.TaskMetric,
       m ∈ Grpc.task_metrics perf →
       ∃ t : gmap string string,
         Grpc.mock_tasks self !! Grpc.metric_task_id m = Some t ∧
         t !! "title" = Some (Grpc.metric_title m)) ∧
    (∀ k : string,
       is_Some (Grpc.mock_tasks self !! k) →
       ∃ m : Grpc.TaskMetric,
         m ∈ Grpc.task_metrics perf ∧ Grpc.metric_task_id m = k).
Proof.
  cbv zeta. split; [exact initial_mock_tasks_titled|].
  exact (team_performance_lists_every_task unit
           (λ (g : unit) (a b : Z), (a, g))
           (λ (g : unit) (l : list string), (default "" (head l), g))
           (Grpc.mk_servicer Grpc.initial_mock_tasks tt)
           (Grpc.mk_TeamRequest "eng" 30) initial_mock_tasks_titled).
Defined.

Lemma team_performance_after_batch_witness :
  let randint := λ (g : list float) (a b : Z), (a, g) in
  let choice :=
    λ (g : list float) (l : list string), (default "" (head l), g) in
  let self :=
    Grpc.mk_servicer Grpc.initial_mock_tasks [0.1%float; 0.9%float] in
  let request_iterator :=
    [Grpc.mk_TaskUpdateRequest "task_001" "completed" "demo_user";
     Grpc.mk_TaskUpdateRequest "task_002" "in_progress" "demo_user"] in
  let request := Grpc.mk_TeamRequest "eng" 30 in
  let self1 :=
    snd (Grpc.BatchUpdateTasks _ Grpc.replay self request_iterator) in
  Grpc.titled (Grpc.mock_tasks self) ∧
  Grpc.titled (Grpc.mock_tasks self1) ∧
  ∃ perf : Grpc.TeamPerformance,
    fst (Grpc.GetTeamPerformance _ randint choice self1 request) =
      Some perf ∧
    length (Grpc.task_metrics perf) = size (Grpc.mock_tasks self).
Proof.
  cbv zeta. split; [exact initial_mock_tasks_titled|].
  exact (team_performance_after_batch (list float) Grpc.replay
           (λ (g : list float) (a b : Z), (a, g))
           (λ (g : list float) (l : list string), (default "" (head l), g))
           (Grpc.mk_servicer Grpc.initial_mock_tasks [0.1%float; 0.9%float])
           [Grpc.mk_TaskUpdateRequest "task_001" "completed" "demo_user";
            Grpc.mk_TaskUpdateRequest "task_002" "in_progress" "demo_user"]
           (Grpc.mk_TeamRequest "eng" 30) initial_mock_tasks_titled).
Defined.

Section StreamingFacts.

Import Grpc.

Variable rng : Type.
Variable choice : rng → list string → string * rng.
Variable time : nat → Z.
Variable is_active : nat → bool.



(** The loop of [CollaborateOnTask] from iteration [i]. *)
Lemma collaborate_from_lookup (request_iterator : list TaskCollaboration) :
  ∀ i j : nat,
    collaborate_from time i request_iterator !! j =
      (λ request,
         mk_TaskCollaboration (collab_task_id request) "server"
           "acknowledge" ("Received: " +:+ collab_data request)
           (time (i + j))) <$> request_iterator !! j.
Proof.
  induction request_iterator as [|request rest IH]; intros i j; [done|].
  destruct j as [|j]; cbn.
  - by rewrite Nat.add_0_r.
  - rewrite IH. by replace (S i + j) with (i + S j) by lia.
Qed.

(** X21: [CollaborateOnTask] answers every message of the stream with
    exactly one acknowledgement, in order: for the same task, from user
    [server], with action [acknowledge] and the message's data after
    [Received: ]; the sender's user id and action are never echoed. *)
Theorem collaborate_acknowledges_each_message
    (request_iterator : list TaskCollaboration) :
  let responses := CollaborateOnTask time request_iterator in
  length responses = length request_iterator ∧
  ∀ (j : nat) (request : TaskCollaboration),
    request_iterator !! j = Some request →
    ∃ response : TaskCollaboration,
      responses !! j = Some response ∧
      collab_task_id response = collab_task_id request ∧
      collab_user_id response = "server" ∧
      collab_action response = "acknowledge" ∧
      collab_data response = "Received: " +:+ collab_data request ∧
      collab_timestamp response = time j.
Proof.
  cbv zeta. unfold CollaborateOnTask. split.
  - generalize 0. induction request_iterator as [|request rest IH];
      intros i; [done|].
    cbn. by rewrite IH.
  - intros j request Hj. rewrite collaborate_from_lookup, Hj.
    eexists. split; [reflexivity|]. by cbn.
Qed.

End StreamingFacts.

(** * One more fact about creation *)

(** X23: POST /tasks writes exactly one key of the task store, the
    generated id: every task stored under another id is as before, the
    store grows by one when that id was free and keeps its size when it
    was taken, and the story store is untouched. *)
Theorem create_writes_one_key (clock : nat → datetime)
    (task_request : CreateTaskRequest) (w : world) :
  let new_id := "task_" +:+ Fmt.zfill 3 (size (tasks_db w) + 1) in
  let w1 := snd (dispatch clock (POST_tasks task_request) w) in
  (∀ j : string, j ≠ new_id → tasks_db w1 !! j = tasks_db w !! j) ∧
  size (tasks_db w1) =
    (if contains new_id (tasks_db w) then size (tasks_db w)
     else S (size (tasks_db w))) ∧
  user_stories_db w1 = user_stories_db w.
Proof.
  cbv zeta. cbn [dispatch]. unfold respond. rewrite create_task_run.
  cbn [snd tasks_db user_stories_db]. split; [|split; [|done]].
  - intros j Hj. by apply lookup_insert_ne.
  - rewrite map_size_insert. unfold contains.
    by destruct (tasks_db w !! _).
Qed.

(** * The handlers behind the framework *)

(** ** Records that fit their model *)

Lemma valid_Task_dict (t : Task) : valid_Task (Task_dict t) = true.
Proof.
  unfold valid_Task.
  destruct (Task_dict_lookups t) as (-> & -> & -> & -> & ->).
  assert (Task_dict t !! "created_at" = Some (VStr (task_created_at t)))
    as ->.
  { unfold Task_dict.
    do 4 (rewrite lookup_insert_ne by done). apply lookup_insert_eq. }
  by destruct (task_user_story t).
Qed.



Lemma is_str_spec (o : option value) :
  is_str o = true ↔ ∃ s : string, o = Some (VStr s).
Proof.
  destruct o as [[]|]; simpl;
    (split;
     [intros H; try discriminate H; eauto
     |intros H; try reflexivity; decompose [or ex] H; discriminate]).
Qed.

Lemma is_opt_str_spec (o : option value) :
  is_opt_str o = true ↔
  o = None ∨ o = Some VNone ∨ ∃ s : string, o = Some (VStr s).
Proof.
  destruct o as [[]|]; simpl;
    (split;
     [intros H; try discriminate H; eauto
     |intros H; try reflexivity; decompose [or ex] H; discriminate]).
Qed.

Lemma is_str_or_missing_spec (o : option value) :
  is_str_or_missing o = true ↔
  o = None ∨ ∃ s : string, o = Some (VStr s).
Proof.
  destruct o as [[]|]; simpl;
    (split;
     [intros H; try discriminate H; eauto
     |intros H; try reflexivity; decompose [or ex] H; discriminate]).
Qed.

Lemma forallb_is_str_value (l : list value) :
  forallb is_str_value l = true ↔ ∃ ss : list string, l = map VStr ss.
Proof.
  induction l as [|v l IH]; simpl.
  - split; [by exists [] | done].
  - rewrite andb_true_iff, IH. split.
    + intros [Hv [ss ->]]. destruct v; try discriminate Hv.
      by exists (s :: ss).
    + intros [[|s ss] H]; [discriminate|]. injection H as -> ->.
      split; [done | by exists ss].
Qed.

Lemma is_str_list_spec (o : option value) :
  is_str_list o = true ↔
  ∃ l : list string, o = Some (VList (map VStr l)).
Proof.
  destruct o as [[| | | |l|]|]; simpl;
    try (split; [discriminate | by intros [l' [=]]]).
  rewrite forallb_is_str_value. split.
  - intros [ss ->]. by exists ss.
  - intros [ss [= ->]]. by exists ss.
Qed.

(** The framework's check of a record is the model, field by field. *)
Lemma valid_Task_fits (d : dict) : valid_Task d = true ↔ fits_Task d.
Proof.
  unfold valid_Task, fits_Task.
  rewrite !andb_true_iff, !is_str_spec, is_opt_str_spec. tauto.
Qed.

Lemma valid_UserStory_fits (d : dict) :
  valid_UserStory d = true ↔ fits_UserStory d.
Proof.
  unfold valid_UserStory, fits_UserStory.
  rewrite !andb_true_iff, !is_str_spec, is_str_list_spec,
    is_str_or_missing_spec.
  tauto.
Qed.

Lemma store_valid_checks (w : world) : store_valid w ↔ store_checks w.
Proof.
  unfold store_valid, store_checks. split; intros [Ht Hs]; split;
    intros k d H;
    first [apply valid_Task_fits | apply valid_UserStory_fits]; eauto.
Qed.

Lemma initial_store_checks : store_checks initial_world.
Proof.
  split; intros k d; cbn [tasks_db user_stories_db initial_world];
    [unfold initial_tasks_db | unfold initial_user_stories_db];
    (rewrite lookup_insert; case_decide; [by intros [= <-]|]);
    (rewrite lookup_insert; case_decide; [by intros [= <-]|]);
    by rewrite lookup_empty.
Qed.

Lemma initial_store_valid : store_valid initial_world.
Proof. apply store_valid_checks, initial_store_checks. Qed.

Lemma forallb_values (ok : dict → bool) (db : gmap string dict) :
  (∀ (k : string) (d : dict), db !! k = Some d → ok d = true) →
  forallb ok (map snd (map_to_list db)) = true.
Proof.
  intros H. apply forallb_forall. intros d Hin.
  apply list_elem_of_In, elem_of_values in Hin as [k Hk]. by apply (H k).
Qed.

(** ** The framework keeps what the handler did *)

Lemma checked_respond {A} (ok : A → bool) (status_code : nat)
    (m : M (ApiResponse A)) (w : world) :
  snd (checked ok status_code m w) =
    snd (respond (Enveloped status_code) m w) ∧
  ∀ resp : response,
    fst (checked ok status_code m w) = Handled resp →
    resp = fst (respond (Enveloped status_code) m w).
Proof.
  unfold checked, respond.
  destruct (m w) as [[body|[sc d|key]] w'].
  - destruct (match data body with Some x => ok x | None => true end);
      split; [done | by intros resp [= <-] | done | by intros resp [=]].
  - split; [done | by intros resp [= <-]].
  - split; [done | by intros resp [=]].
Qed.

Lemma unchecked_respond {A} (wrap : A → response) (m : M A) (w : world) :
  snd (unchecked wrap m w) = snd (respond wrap m w) ∧
  ∀ resp : response,
    fst (unchecked wrap m w) = Handled resp →
    resp = fst (respond wrap m w).
Proof.
  unfold unchecked, respond.
  destruct (m w) as [[a|[sc d|key]] w'];
    (split; [done|]); intros resp [=]; by subst.
Qed.


(** What reaches the client from a handler is what the handler
    produced. *)
Lemma serve_typed_Handled (clock : nat → datetime) (r : request)
    (w : world) (resp : response) :
  fst (serve_typed clock r w) = Handled resp →
  resp = fst (dispatch clock r w).
Proof.
  destruct r; cbn [serve_typed dispatch];
    first [apply checked_respond | apply unchecked_respond].
Qed.

Lemma serve_get_task_present (clock : nat → datetime) (task_id : string)
    (t : dict) (w : world) :
  tasks_db w !! task_id = Some t →
  serve_typed clock (GET_task task_id) w =
    (if valid_Task t
     then Handled
            (Enveloped 200
               (new_ApiResponse true t "Task retrieved successfully"
                  (isoformat (clock (ticks w)))))
     else InternalServerError,
     mk_world (tasks_db w) (user_stories_db w) (S (ticks w))).
Proof.
  intros H. cbn [serve_typed]. unfold checked.
  rewrite (get_task_present clock _ _ _ H). cbn [data new_ApiResponse].
  by destruct (valid_Task t).
Qed.

Lemma serve_put_task_present (clock : nat → datetime) (task_id : string)
    (task_update t : dict) (w : world) :
  tasks_db w !! task_id = Some t →
  let t' := foldl overwrite t (map_to_list task_update) in
  serve_typed clock (PUT_task task_id task_update) w =
    (if valid_Task t'
     then Handled
            (Enveloped 200
               (new_ApiResponse true t' "Task updated successfully"
                  (isoformat (clock (ticks w)))))
     else InternalServerError,
     mk_world (<[task_id := t']> (tasks_db w)) (user_stories_db w)
              (S (ticks w))).
Proof.
  intros H. cbv zeta. cbn [serve_typed]. unfold checked.
  rewrite (update_task_present clock _ _ _ _ H). cbn [data new_ApiResponse].
  by destruct (valid_Task _).
Qed.




(** What validation keeps of a request. *)
Lemma validate_shape (raw : raw_request) (r : request) :
  validate raw = Some r →
  is_direct r = raw_is_direct raw ∧
  is_put r = raw_is_put raw ∧
  success_status r = raw_success_status raw.
Proof.
  destruct raw; cbn [validate];
    try (intros [= <-]; by repeat split).
  - destruct (parse_CreateTaskRequest body); intros [= <-];
      by repeat split.
  - destruct (parse_task_update body); intros [= <-]; by repeat split.
  - destruct (parse_UserStory body); intros [= <-]; by repeat split.
Qed.

(** ** The envelope on the wire *)



(** X15: whenever an envelope reaches the client, its status code and
    its success flag agree.  On every endpoint but
    [/response-patterns/direct] the client gets either what the handler
    produced, which is an envelope with [success] true, data and a
    message under the decorator's status (201 for the two creations,
    200 otherwise) or an envelope with [success] false, a non-empty
    error code and no data under 400, 404 or 500; or the framework's
    422, exactly for a body it refuses; or the framework's 500, after a
    handler ran.  The last two carry no envelope. *)
Theorem served_status_and_success_agree (clock : nat → datetime)
    (raw : raw_request) (w : world) :
  raw_is_direct raw = false →
  match fst (serve clock raw w) with
  | Handled resp =>
      is_Some (validate raw) ∧ status_agrees (raw_success_status raw) resp
  | Unprocessable => validate raw = None
  | InternalServerError => is_Some (validate raw)
  end.
Proof.
  intros Hnd. unfold serve. destruct (validate raw) as [r|] eqn:Hv; [|done].
  destruct (validate_shape raw r Hv) as (Hdirect & _ & Hstatus).
  destruct (fst (serve_typed clock r w)) as [resp| |] eqn:Hs.
  - split; [by eauto|].
    rewrite (serve_typed_Handled clock r w resp Hs), <- Hstatus.
    apply handlers_status_agrees. by rewrite Hdirect.
  - exfalso. revert Hs. clear.
    destruct r; cbn [serve_typed]; unfold checked, unchecked;
      by repeat case_match.
  - by eauto.
Qed.

Lemma served_status_and_success_agree_witness :
  let raw :=
    RAW_POST_tasks (VDict [("title", VStr "X"); ("description", VStr "Y")]) in
  raw_is_direct raw = false ∧
  match fst (serve example_clock raw initial_world) with
  | Handled resp =>
      is_Some (validate raw) ∧ status_agrees (raw_success_status raw) resp
  | Unprocessable => validate raw = None
  | InternalServerError => is_Some (validate raw)
  end.
Proof.
  cbv zeta. split; [reflexivity|].
  apply (served_status_and_success_agree example_clock
           (RAW_POST_tasks
              (VDict [("title", VStr "X"); ("description", VStr "Y")]))
           initial_world).
  reflexivity.
Defined.

(** ** Single task requests on the wire *)

(** X22: GET /tasks/{id} on a stored id is answered 200 with [success]
    true and the stored record as data when that record fits the [Task]
    model, and with the framework's bare 500 when it does not; the task
    store is unchanged either way. *)
Theorem get_serves_the_stored_record (clock : nat → datetime)
    (task_id : string) (t : dict) (w : world) :
  tasks_db w !! task_id = Some t →
  let res := serve clock (RAW_GET_task task_id) w in
  (fits_Task t →
   fst res =
     Handled
       (Enveloped 200
          (mk_ApiResponse true (Some t) (Some "Task retrieved successfully")
             (isoformat (clock (ticks w))) "1.0.0"))) ∧
  (¬ fits_Task t → fst res = InternalServerError) ∧
  tasks_db (snd res) = tasks_db w.
Proof.
  intros H. cbv zeta. unfold serve. cbn [validate].
  rewrite (serve_get_task_present clock _ _ _ H). cbn [fst snd tasks_db].
  rewrite <- valid_Task_fits.
  destruct (valid_Task t); repeat split; done.
Qed.

Lemma get_serves_the_stored_record_witness :
  let t :=
    seed_task "task_002" "Understand REST"
      "Learn REST principles and HTTP methods" "completed"
      "2024-01-14T09:00:00Z"
      "As a developer, I want to understand REST principles so that I can design better APIs" in
  let res := serve example_clock (RAW_GET_task "task_002") initial_world in
  tasks_db initial_world !! "task_002" = Some t ∧
  (fits_Task t →
   fst res =
     Handled
       (Enveloped 200
          (mk_ApiResponse true (Some t) (Some "Task retrieved successfully")
             (isoformat (example_clock (ticks initial_world))) "1.0.0"))) ∧
  (¬ fits_Task t → fst res = InternalServerError) ∧
  tasks_db (snd res) = tasks_db initial_world.
Proof.
  cbv zeta. split; [reflexivity|].
  exact (get_serves_the_stored_record example_clock "task_002" _
           initial_world eq_refl).
Defined.

(** X9: a PUT on a stored task whose payload names no field of the
    record (the empty payload included) leaves the task store unchanged;
    it is answered 200 with the record as it is when the record fits
    the [Task] model, and with the framework's bare 500 when it does
    not. *)
Theorem update_with_unknown_fields_changes_nothing
    (clock : nat → datetime) (task_id : string)
    (members : list (string * value)) (t : dict) (w : world) :
  tasks_db w !! task_id = Some t →
  (∀ k : string, is_Some (dict_of_object members !! k) → t !! k = None) →
  let res := serve clock (RAW_PUT_task task_id (VDict members)) w in
  tasks_db (snd res) = tasks_db w ∧
  (fits_Task t →
   fst res =
     Handled
       (Enveloped 200
          (mk_ApiResponse true (Some t) (Some "Task updated successfully")
             (isoformat (clock (ticks w))) "1.0.0"))) ∧
  (¬ fits_Task t → fst res = InternalServerError).
Proof.
  intros H Hdis. cbv zeta. unfold serve.
  cbn [validate parse_task_update fmap option_fmap option_map].
  rewrite (serve_put_task_present clock _ _ _ _ H). cbv zeta.
  rewrite (overwrite_all_disjoint _ _ Hdis). cbn [fst snd tasks_db].
  split; [by apply insert_id|]. rewrite <- valid_Task_fits.
  destruct (valid_Task t); split; done.
Qed.

Lemma update_with_unknown_fields_changes_nothing_witness :
  let members := [("assignee", VStr "alice")] in
  let t :=
    seed_task "task_002" "Understand REST"
      "Learn REST principles and HTTP methods" "completed"
      "2024-01-14T09:00:00Z"
      "As a developer, I want to understand REST principles so that I can design better APIs" in
  let res :=
    serve example_clock (RAW_PUT_task "task_002" (VDict members))
      initial_world in
  tasks_db initial_world !! "task_002" = Some t ∧
  (∀ k : string, is_Some (dict_of_object members !! k) → t !! k = None) ∧
  tasks_db (snd res) = tasks_db initial_world ∧
  (fits_Task t →
   fst res =
     Handled
       (Enveloped 200
          (mk_ApiResponse true (Some t) (Some "Task updated successfully")
             (isoformat (example_clock (ticks initial_world))) "1.0.0"))) ∧
  (¬ fits_Task t → fst res = InternalServerError).
Proof.
  cbv zeta.
  assert (Hdis : ∀ k : string,
            is_Some (dict_of_object [("assignee", VStr "alice")] !! k) →
            seed_task "task_002" "Understand REST"
              "Learn REST principles and HTTP methods" "completed"
              "2024-01-14T09:00:00Z"
              "As a developer, I want to understand REST principles so that I can design better APIs"
              !! k = None).
  { intros k.
    change (dict_of_object [("assignee", VStr "alice")])
      with (<["assignee" := VStr "alice"]> (∅ : dict)).
    rewrite lookup_insert. case_decide as Hk.
    - intros _. subst k. reflexivity.
    - rewrite lookup_empty. by intros [? ?]. }
  split; [reflexivity|]. split; [exact Hdis|].
  exact (update_with_unknown_fields_changes_nothing example_clock
           "task_002" _ _ initial_world eq_refl Hdis).
Defined.

(** X11: while every stored record fits its model, GET /tasks and
    GET /user-stories are answered 200 with exactly the stored records:
    as many entries as the store has keys, and a record is listed if and
    only if it is stored under some id. *)
Theorem listings_are_the_stores (clock : nat → datetime) (w : world) :
  store_valid w →
  (∃ (body : ApiResponse (list dict)) (l : list dict) (w1 : world),
     serve clock RAW_GET_tasks w = (Handled (Enveloped 200 body), w1) ∧
     success body = true ∧ data body = Some l ∧
     length l = size (tasks_db w) ∧
     ∀ d : dict, d ∈ l ↔ ∃ k : string, tasks_db w !! k = Some d) ∧
  (∃ (body : ApiResponse (list dict)) (l : list dict) (w1 : world),
     serve clock RAW_GET_user_stories w =
       (Handled (Enveloped 200 body), w1) ∧
     success body = true ∧ data body = Some l ∧
     length l = size (user_stories_db w) ∧
     ∀ d : dict, d ∈ l ↔ ∃ k : string, user_stories_db w !! k = Some d).
Proof.
  intros Hv. apply store_valid_checks in Hv as [Htasks Hstories]. split.
  - unfold serve. cbn [validate serve_typed].
    unfold checked, get_tasks, mbind, M_bind, bind, get_tasks_db,
      datetime_now, ret. cbn [data new_ApiResponse].
    rewrite (forallb_values valid_Task _ Htasks).
    do 3 eexists. split; [reflexivity|]. split; [reflexivity|].
    split; [reflexivity|]. split.
    + by rewrite length_map, length_map_to_list.
    + intros d. apply elem_of_values.
  - unfold serve. cbn [validate serve_typed].
    unfold checked, get_user_stories, mbind, M_bind, bind,
      get_user_stories_db, datetime_now, ret. cbn [data new_ApiResponse].
    rewrite (forallb_values valid_UserStory _ Hstories).
    do 3 eexists. split; [reflexivity|]. split; [reflexivity|].
    split; [reflexivity|]. split.
    + by rewrite length_map, length_map_to_list.
    + intros d. apply elem_of_values.
Qed.

Lemma listings_are_the_stores_witness :
  store_valid initial_world ∧
  (∃ (body : ApiResponse (list dict)) (l : list dict) (w1 : world),
     serve example_clock RAW_GET_tasks initial_world =
       (Handled (Enveloped 200 body), w1) ∧
     success body = true ∧ data body = Some l ∧
     length l = size (tasks_db initial_world) ∧
     ∀ d : dict,
       d ∈ l ↔ ∃ k : string, tasks_db initial_world !! k = Some d) ∧
  (∃ (body : ApiResponse (list dict)) (l : list dict) (w1 : world),
     serve example_clock RAW_GET_user_stories initial_world =
       (Handled (Enveloped 200 body), w1) ∧
     success body = true ∧ data body = Some l ∧
     length l = size (user_stories_db initial_world) ∧
     ∀ d : dict,
       d ∈ l ↔ ∃ k : string, user_stories_db initial_world !! k = Some d).
Proof.
  split; [exact initial_store_valid|].
  exact (listings_are_the_stores example_clock initial_world
           initial_store_valid).
Defined.

(** * Creation *)

Lemma zfill_3_length (n : nat) :
  3 ≤ String.length (Fmt.zfill 3 n) ∧
  (n < 1000 → String.length (Fmt.zfill 3 n) = 3).
Proof.
  split.
  - unfold Fmt.zfill. rewrite length_append, length_zeros. lia.
  - intros Hn.
    assert (Hall : forallb
                     (λ m, Nat.eqb (String.length (Fmt.zfill 3 m)) 3)
                     (seq 0 1000) = true) by (vm_compute; reflexivity).
    rewrite forallb_forall in Hall.
    apply Nat.eqb_eq, Hall, in_seq. lia.
Qed.

(** C3: POST /tasks answers 201 with [success] true, and the GET of the
    returned id that follows answers 200 with the stored record, whose
    title and description are the submitted strings, whose user_story is
    the submitted string, or [None] when none was submitted, and whose
    status is [pending]; both answers pass their response model and
    reach the client as they are. *)
Theorem create_then_get (clock : nat → datetime)
    (task_request : CreateTaskRequest) (w : world) :
  ∃ (body : ApiResponse Task) (t : Task) (w1 : world),
    dispatch clock (POST_tasks task_request) w = (Enveloped 201 body, w1) ∧
    fst (serve_typed clock (POST_tasks task_request) w) =
      Handled (Enveloped 201 body) ∧
    success body = true ∧
    data body = Some t ∧
    ∃ (body' : ApiResponse dict) (d : dict) (w2 : world),
      dispatch clock (GET_task (task_id_ t)) w1 =
        (Enveloped 200 body', w2) ∧
      fst (serve_typed clock (GET_task (task_id_ t)) w1) =
        Handled (Enveloped 200 body') ∧
      success body' = true ∧
      data body' = Some d ∧
      d !! "id" = Some (VStr (task_id_ t)) ∧
      d !! "title" = Some (VStr (req_title task_request)) ∧
      d !! "description" = Some (VStr (req_description task_request)) ∧
      d !! "user_story" =
        Some (match req_user_story task_request with
              | Some user_story => VStr user_story
              | None => VNone
              end) ∧
      d !! "status" = Some (VStr "pending").
Proof.
  set (task_id := "task_" +:+ Fmt.zfill 3 (size (tasks_db w) + 1)).
  set (new_task :=
         mk_Task task_id (req_title task_request)
           (req_description task_request) "pending"
           (isoformat (clock (ticks w))) (req_user_story task_request)).
  set (w1 := mk_world (<[task_id := Task_dict new_task]> (tasks_db w))
               (user_stories_db w) (S (S (ticks w)))).
  exists (new_ApiResponse true new_task "Task created successfully"
            (isoformat (clock (S (ticks w))))), new_task, w1.
  split; [reflexivity|]. split; [reflexivity|]. split; [reflexivity|].
  split; [reflexivity|].
  assert (Hstored : tasks_db w1 !! task_id = Some (Task_dict new_task))
    by apply lookup_insert_eq.
  pose proof (serve_get_task_present clock _ _ _ Hstored) as Hserve.
  rewrite valid_Task_dict in Hserve.
  change (task_id_ new_task) with task_id.
  do 3 eexists. split.
  { cbn [dispatch]. unfold respond.
    rewrite (get_task_present clock _ _ _ Hstored). reflexivity. }
  split; [by rewrite Hserve|]. split; [reflexivity|].
  split; [reflexivity|].
  destruct (Task_dict_lookups new_task) as (Hid & Ht & Hd & Hs & Hu).
  repeat split; assumption.
Qed.

(** C6: the id POST /tasks assigns is [task_] followed by a numeral that
    reads as the store's size plus one, on at least three characters and
    on exactly three below 1000; the new record is stored under that id
    and carries it; on the seeded store of two tasks the id is
    [task_003]. *)
Theorem create_task_id_sequential (clock : nat → datetime)
    (task_request : CreateTaskRequest) (w : world) :
  let n := size (tasks_db w) in
  ∃ numeral : string,
    created_id (create_task clock task_request w) =
      Some ("task_" +:+ numeral) ∧
    read_decimal numeral = Some (n + 1) ∧
    3 ≤ String.length numeral ∧
    (n + 1 < 1000 → String.length numeral = 3) ∧
    stored_id (snd (create_task clock task_request w))
      ("task_" +:+ numeral) = Some (VStr ("task_" +:+ numeral)) ∧
    ∀ (stories : gmap string dict) (k : nat),
      created_id
        (create_task clock task_request
           (mk_world initial_tasks_db stories k)) = Some "task_003".
Proof.
  cbv zeta. exists (Fmt.zfill 3 (size (tasks_db w) + 1)).
  split; [reflexivity|]. split; [apply read_zfill|].
  split; [apply zfill_3_length|]. split; [apply zfill_3_length|].
  split.
  - rewrite create_task_run. unfold stored_id. cbn [snd tasks_db].
    rewrite lookup_insert_eq. cbn [mbind option_bind].
    apply Task_dict_lookups.
  - intros stories k. reflexivity.
Qed.

(** C9: POST /user-stories replaces whatever id the client sent by
    [story_] followed by a numeral that reads as the story store's size
    plus one (at least three characters, exactly three below 1000): the
    returned story and the stored record both carry that id, the outcome
    does not depend on the id in the request body, and on the seeded
    store of two stories the id is [story_003]. *)
Theorem create_user_story_overrides_id (clock : nat → datetime)
    (story : UserStory) (w : world) :
  let n := size (user_stories_db w) in
  (∃ (numeral : string) (body : ApiResponse UserStory) (s : UserStory)
     (d : dict) (w1 : world),
     dispatch clock (POST_user_stories story) w =
       (Enveloped 201 body, w1) ∧
     data body = Some s ∧
     story_id_ s = "story_" +:+ numeral ∧
     read_decimal numeral = Some (n + 1) ∧
     3 ≤ String.length numeral ∧
     (n + 1 < 1000 → String.length numeral = 3) ∧
     user_stories_db w1 !! ("story_" +:+ numeral) = Some d ∧
     d !! "id" = Some (VStr ("story_" +:+ numeral))) ∧
  (∀ client_id : string,
     dispatch clock (POST_user_stories (set_story_id story client_id)) w =
       dispatch clock (POST_user_stories story) w) ∧
  (∀ (tasks : gmap string dict) (k : nat),
     ∃ (body : ApiResponse UserStory) (s : UserStory) (w1 : world),
       dispatch clock (POST_user_stories story)
         (mk_world tasks initial_user_stories_db k) =
         (Enveloped 201 body, w1) ∧
       data body = Some s ∧
       story_id_ s = "story_003").
Proof.
  cbv zeta. split; [|split].
  - exists (Fmt.zfill 3 (size (user_stories_db w) + 1)).
    cbn [dispatch]. unfold respond. rewrite create_user_story_run.
    cbv zeta. do 4 eexists. split; [reflexivity|].
    split; [reflexivity|]. split; [reflexivity|].
    split; [apply read_zfill|].
    split; [apply zfill_3_length|]. split; [apply zfill_3_length|].
    cbn [user_stories_db]. split; [apply lookup_insert_eq|].
    apply UserStory_dict_id.
  - intros client_id. reflexivity.
  - intros tasks k. do 3 eexists. split; [reflexivity|].
    split; reflexivity.
Qed.

(** * The [id] field, request by request *)

(** C5, as the code has it: the stored [id] field of an existing task
    changes.  A PUT whose payload supplies [id] overwrites it; and once
    a task has been deleted, a POST regenerates an id that is still
    stored and replaces that record, [id] field included. *)
Lemma id_field_is_rewritten :
  let w1 :=
    snd (dispatch example_clock
           (PUT_task "task_002" (<["id" := VStr "renamed"]> ∅))
           initial_world) in
  let w2 := snd (dispatch example_clock (DELETE_task "task_001") w1) in
  let w3 :=
    snd (dispatch example_clock
           (POST_tasks (mk_CreateTaskRequest "X" "Y" None)) w2) in
  stored_id initial_world "task_002" = Some (VStr "task_002") ∧
  stored_id w1 "task_002" = Some (VStr "renamed") ∧
  stored_id w2 "task_002" = Some (VStr "renamed") ∧
  stored_id w3 "task_002" = Some (VStr "task_002").
Proof. cbv zeta. repeat split; vm_compute; reflexivity. Qed.

Lemma stored_id_insert (w w' : world) (k : string) (t t' : dict) :
  tasks_db w !! k = Some t →
  tasks_db w' !! k = Some t' →
  t' !! "id" = t !! "id" →
  stored_id w' k = stored_id w k.
Proof.
  intros H H' Hid. unfold stored_id. rewrite H, H'. exact Hid.
Qed.

(** C5, amended: no request changes the stored [id] field of a task
    that is stored before and after it, with two exceptions.  A PUT on
    that task whose payload supplies the key [id] sets the field to the
    supplied value; a POST that generates that task's id replaces the
    record by the new task, whose [id] field is the id returned to the
    client. *)
Theorem stored_id_changes_only_by_put_of_id_or_reuse
    (clock : nat → datetime) (w : world) :
  (∀ (r : request) (k : string),
     (∀ task_update : dict,
        r = PUT_task k task_update → task_update !! "id" = None) →
     is_Some (tasks_db w !! k) →
     is_Some (tasks_db (snd (dispatch clock r w)) !! k) →
     stored_id (snd (dispatch clock r w)) k = stored_id w k ∨
     ∃ task_request : CreateTaskRequest,
       r = POST_tasks task_request ∧
       created_id (create_task clock task_request w) = Some k ∧
       stored_id (snd (dispatch clock r w)) k = Some (VStr k)) ∧
  (∀ (task_id : string) (task_update t : dict) (v : value),
     tasks_db w !! task_id = Some t →
     is_Some (t !! "id") →
     task_update !! "id" = Some v →
     stored_id (snd (dispatch clock (PUT_task task_id task_update) w))
       task_id = Some v).
Proof.
  split.
  - intros r k Hput [t Ht] [t' Ht'].
    destruct r; try (left; reflexivity).
    + (* GET /tasks/{id} *)
      left. unfold stored_id.
      by rewrite (proj1 (get_task_keeps_world clock task_id w)).
    + (* POST /tasks *)
      revert Ht'. cbn [dispatch]. unfold respond.
      rewrite create_task_run. cbn [snd tasks_db].
      rewrite lookup_insert. case_decide as Hk.
      * intros [= <-]. right. exists task_request.
        split; [done|]. split; [by rewrite <- Hk|].
        unfold stored_id. cbn [tasks_db]. rewrite <- Hk, lookup_insert_eq.
        cbn [mbind option_bind]. apply Task_dict_lookups.
      * intros Ht'. left. unfold stored_id. cbn [tasks_db].
        by rewrite lookup_insert_ne.
    + (* PUT /tasks/{id} *)
      left. destruct (tasks_db w !! task_id) as [t0|] eqn:E.
      * revert Ht'. rewrite (update_task_run clock _ _ _ _ E).
        cbn [snd tasks_db]. rewrite lookup_insert. case_decide as Hk.
        -- subst task_id. intros [= <-].
           assert (t0 = t) as -> by congruence.
           apply (stored_id_insert _ _ _ t
                    (foldl overwrite t (map_to_list task_update)));
             [done | apply lookup_insert_eq|].
           rewrite overwrite_all_lookup, (Hput task_update eq_refl).
           by destruct (t !! "id").
        -- intros Ht'. unfold stored_id. cbn [tasks_db].
           by rewrite lookup_insert_ne.
      * unfold stored_id.
        by rewrite (update_absent_keeps_store clock _ _ _ E).
    + (* DELETE /tasks/{id} *)
      left. destruct (tasks_db w !! task_id) as [t0|] eqn:E.
      * revert Ht'. rewrite (delete_task_run clock _ _ _ E).
        cbn [tasks_db]. rewrite lookup_delete_Some. intros [Hne _].
        unfold stored_id. cbn [tasks_db]. by rewrite lookup_delete_ne.
      * unfold stored_id. cbn [dispatch].
        rewrite (respond_ext _ _ _ _ (delete_task_absent clock _ _ E)).
        by rewrite task_not_found_keeps_store.
    + (* GET /user-stories/{id} *)
      left. unfold stored_id.
      by rewrite (proj1 (get_user_story_keeps_world clock story_id w)).
  - intros task_id task_update t v Ht [old Hold] Hv.
    rewrite (update_task_run clock _ _ _ _ Ht). unfold stored_id.
    cbn [snd tasks_db]. rewrite lookup_insert_eq. cbn [mbind option_bind].
    by rewrite overwrite_all_lookup, Hold, Hv.
Qed.
